(** * Wallet service: ledger engine and webhook reconciler

    A shallow embedding of [src/modules/wallet/wallet.service.ts] (with the
    part of [src/modules/paystack/paystack.service.ts] it calls) and the
    properties of the ledger that the specification states about it.

    Conventions of the embedding.
    - Amounts and balances are JavaScript numbers (binary64) in the
      source ([Number(wallet.balance)], [amount / 100]).  In the store
      model they are rationals [Q], and [+], [-], [*], [/] stand for the
      one operation the source performs: the statements give a result as
      the expression the code evaluates and compare numbers with [<] and
      [<=]; they do not use identities such as [(a - x) + x = a], which
      rounding breaks.  Where rounding decides a property, the arithmetic
      of the source is evaluated in binary64 itself, in [Binary64].
    - The two tables are lists of rows.  [findOne] returns the first row
      that satisfies the [where] clause; [save] of an entity that was read
      from the table updates every row with its primary key, and inserts
      the entity when there is none.
    - A query runner transaction is a state-and-exception monad over the
      store; [rollbackTransaction] restores the store the transaction
      started from.  The monad also logs the row locks taken by
      [lock: { mode: 'pessimistic_write' }], in the order of acquisition.
    - [Date.now()], [new Date().toISOString()], [crypto.randomBytes] and
      the HTTP call to the gateway are inputs of the operations.
    - Logging is left out, and so is the [signature] argument of
      [handlePaystackWebhook], which its body never reads. *)

From Stdlib Require Import QArith Lqa.
From Stdlib Require PrimFloat.
From stdpp Require Import gmap strings list sorting.

Local Open Scope string_scope.

(** ** Numbers *)

(** [x < y] on numbers, as a boolean. *)
Definition Qlt_bool (x y : Q) : bool := negb (Qle_bool y x).

(** ** Entities *)

Inductive TransactionType := DEPOSIT | TRANSFER_IN | TRANSFER_OUT.

Inductive TransactionStatus := PENDING | SUCCESS | FAILED.

#[global] Instance TransactionStatus_eq_dec : EqDecision TransactionStatus.
Proof. solve_decision. Defined.

#[global] Instance TransactionType_eq_dec : EqDecision TransactionType.
Proof. solve_decision. Defined.

(** The values the service stores under a metadata key. *)
Inductive JsonValue :=
| JBool (b : bool)
| JString (s : string).

#[global] Instance JsonValue_eq_dec : EqDecision JsonValue.
Proof. solve_decision. Defined.

(** The text of the [metadata] column: either the [JSON.stringify] of an
    object, or a text on which [JSON.parse] throws.  Every writer of the
    service stores the first kind.  A text that is valid JSON but not an
    object ([null], an array, a number) has no counterpart here: the
    statements below are about entries whose metadata is absent, empty
    or an object text, and say so. *)
Inductive MetadataText :=
| JsonObject (o : gmap string JsonValue)
| NotJson (raw : string).

Inductive Exception :=
| NotFoundException (message : string)
| BadRequestException (message : string)
| TypeError
| SyntaxError
| AxiosError.

Definition JSON_stringify (o : gmap string JsonValue) : MetadataText := JsonObject o.

Definition JSON_parse (t : MetadataText) : Exception + gmap string JsonValue :=
  match t with
  | JsonObject o => inr o
  | NotJson _ => inl SyntaxError
  end.

(** JavaScript truthiness of a nullable string column: [null] and the
    empty string are falsy. *)
Definition truthy (m : option MetadataText) : bool :=
  match m with
  | None => false
  | Some (NotJson "") => false
  | Some _ => true
  end.

Module User.
Record t := mk { id : string; email : string }.
End User.

(** Modelled from the spec: the [Wallet] entity ([entities/wallet.entity.ts]
    is not among the sources): unique id, owning user, wallet number,
    balance. *)
Module Wallet.
Record t := mk {
  id : string;
  userId : string;
  walletNumber : string;
  balance : Q
}.

Definition with_balance (w : t) (b : Q) : t :=
  {| id := id w; userId := userId w; walletNumber := walletNumber w; balance := b |}.
End Wallet.

(** Modelled from the spec: the [Transaction] entity
    ([entities/transaction.entity.ts] is not among the sources): unique id,
    owning wallet id, kind, amount, status, reference, optional
    counterparty wallet numbers, metadata text.  The id is generated by
    the store when the row is inserted. *)
Module Transaction.
Record t := mk {
  id : nat;
  walletId : string;
  type : TransactionType;
  amount : Q;
  status : TransactionStatus;
  reference : option string;
  recipientWalletNumber : option string;
  senderWalletNumber : option string;
  metadata : option MetadataText
}.

Definition with_status (e : t) (s : TransactionStatus) : t :=
  {| id := id e; walletId := walletId e; type := type e; amount := amount e;
     status := s; reference := reference e;
     recipientWalletNumber := recipientWalletNumber e;
     senderWalletNumber := senderWalletNumber e; metadata := metadata e |}.

Definition with_metadata (e : t) (m : option MetadataText) : t :=
  {| id := id e; walletId := walletId e; type := type e; amount := amount e;
     status := status e; reference := reference e;
     recipientWalletNumber := recipientWalletNumber e;
     senderWalletNumber := senderWalletNumber e; metadata := m |}.
End Transaction.

(** ** The store *)

Record Store := mkStore {
  wallets : list Wallet.t;
  transactions : list Transaction.t;
  next_transaction_id : nat
}.

Section Table.
Context {K A : Type} `{EqDecision K} (key : A → K).

(** [findOne] with a [where] clause [p]. *)
Definition findOne (p : A → bool) (rows : list A) : option A := List.find p rows.

Definition has_key (k : K) (r : A) : bool := bool_decide (key r = k).

Definition find_by_key (k : K) (rows : list A) : option A := findOne (has_key k) rows.

(** [save] of an entity that carries its primary key. *)
Definition save (x : A) (rows : list A) : list A :=
  if existsb (has_key (key x)) rows
  then (λ r, if has_key (key x) r then x else r) <$> rows
  else rows ++ [x].

End Table.

Definition find_wallet (wid : string) (st : Store) : option Wallet.t :=
  find_by_key Wallet.id wid (wallets st).

Definition find_transaction (r : string) (st : Store) : option Transaction.t :=
  findOne (λ e, bool_decide (Transaction.reference e = Some r)) (transactions st).

Definition save_wallet (w : Wallet.t) (st : Store) : Store :=
  {| wallets := save Wallet.id w (wallets st);
     transactions := transactions st;
     next_transaction_id := next_transaction_id st |}.

Definition save_transaction (e : Transaction.t) (st : Store) : Store :=
  {| wallets := wallets st;
     transactions := save Transaction.id e (transactions st);
     next_transaction_id := next_transaction_id st |}.

(** [save] of a freshly created entity: the store generates its id. *)
Definition insert_transaction (draft : nat → Transaction.t) (st : Store) : Store :=
  {| wallets := wallets st;
     transactions := transactions st ++ [draft (next_transaction_id st)];
     next_transaction_id := S (next_transaction_id st) |}.

(** ** Query runner transactions *)

Record TxState := mkTx {
  db : Store;
  locks : list string
}.

Definition Tx (A : Type) : Type := TxState → (Exception + A) * TxState.

Definition ret {A} (a : A) : Tx A := λ ts, (inr a, ts).

Definition throw {A} (e : Exception) : Tx A := λ ts, (inl e, ts).

Definition bind {A B} (m : Tx A) (k : A → Tx B) : Tx B :=
  λ ts, match m ts with
        | (inr a, ts') => k a ts'
        | (inl e, ts') => (inl e, ts')
        end.

Notation "'let*' x ':=' m 'in' k" := (bind m (λ x, k))
  (at level 10, x name, m at level 100, k at level 200, only parsing).
Notation "'run' m 'then' k" := (bind m (λ _, k))
  (at level 10, m at level 100, k at level 200, only parsing).

Definition read {A} (f : Store → A) : Tx A := λ ts, (inr (f (db ts)), ts).

Definition write (f : Store → Store) : Tx unit :=
  λ ts, (inr tt, {| db := f (db ts); locks := locks ts |}).

Definition lift {A} (r : Exception + A) : Tx A := λ ts, (r, ts).

(** [findOne(Wallet, { where, lock: { mode: 'pessimistic_write' } })]:
    the row that is found is locked. *)
Definition findOneWalletLocked (p : Wallet.t → bool) : Tx (option Wallet.t) :=
  λ ts, let r := findOne p (wallets (db ts)) in
        (inr r, {| db := db ts;
                   locks := locks ts ++ match r with
                                        | Some w => [Wallet.id w]
                                        | None => []
                                        end |}).

(** [startTransaction(); try { body; commitTransaction() }
     catch { rollbackTransaction(); throw }]. *)
Definition runInTransaction {A} (body : Tx A) (st : Store) : (Exception + A) * Store :=
  match body {| db := st; locks := [] |} with
  | (inr a, ts) => (inr a, db ts)
  | (inl e, _) => (inl e, st)
  end.

Definition locksTaken {A} (body : Tx A) (st : Store) : list string :=
  locks (snd (body {| db := st; locks := [] |})).

(** ** Requests *)

Module TransferDto.
Record t := mk { wallet_number : string; amount : Q }.
End TransferDto.

Module DepositDto.
Record t := mk { amount : Q }.
End DepositDto.

(** The body of a gateway notification: [payload.event] and
    [payload.data]; [gateway_response] may be absent. *)
Module Payload.
Record data_t := mkData {
  reference : string;
  amount : Q;
  gateway_response : option string
}.
Record t := mk { event : string; data : data_t }.
End Payload.

(** [s || d] on an optional string: absent and empty are falsy. *)
Definition or_default (s : option string) (d : string) : string :=
  match s with
  | None => d
  | Some "" => d
  | Some v => v
  end.

(** [o[k] = v] followed by [JSON.stringify]: a property whose value is
    [undefined] is left out of the text. *)
Definition set_property (k : string) (v : option JsonValue)
    (o : gmap string JsonValue) : gmap string JsonValue :=
  match v with
  | Some x => <[k:=x]> o
  | None => delete k o
  end.

(** [transaction.metadata ? JSON.parse(transaction.metadata) : {}]. *)
Definition parse_metadata (m : option MetadataText) : Exception + gmap string JsonValue :=
  if truthy m then
    match m with
    | Some t => JSON_parse t
    | None => inr ∅
    end
  else inr ∅.

(** [findOne(Transaction, { where: { reference }, relations: ['wallet'] })]:
    the entry together with the wallet row its [walletId] joins to. *)
Definition find_transaction_with_wallet (r : string) (st : Store)
    : option (Transaction.t * option Wallet.t) :=
  (λ e, (e, find_wallet (Transaction.walletId e) st)) <$> find_transaction r st.

(** ** Webhook reconciler *)

Definition success_metadata (payload : Payload.t) (now : string)
    (o : gmap string JsonValue) : gmap string JsonValue :=
  <["paystack_response" :=
      JString (or_default (Payload.gateway_response (Payload.data payload)) "success")]>
    (<["success_time" := JString now]>
      (<["webhook_received" := JBool true]> o)).

Definition handleSuccessfulCharge_body (payload : Payload.t) (now : string) : Tx unit :=
  let reference := Payload.reference (Payload.data payload) in
  let amount := Payload.amount (Payload.data payload) in
  let* found := read (find_transaction_with_wallet reference) in
  match found with
  | None =>
      throw (NotFoundException ("Transaction with reference " +:+ reference +:+ " not found"))
  | Some (transaction, joined) =>
      if bool_decide (Transaction.status transaction = SUCCESS) then ret tt
      else
        let transaction := Transaction.with_status transaction SUCCESS in
        let* metadata := lift (parse_metadata (Transaction.metadata transaction)) in
        let metadata := success_metadata payload now metadata in
        let transaction :=
          Transaction.with_metadata transaction (Some (JSON_stringify metadata)) in
        run write (save_transaction transaction) then
        match joined with
        | None => throw TypeError
        | Some wallet =>
            let amountInNaira := (amount / 100)%Q in
            let wallet :=
              Wallet.with_balance wallet (Wallet.balance wallet + amountInNaira)%Q in
            write (save_wallet wallet)
        end
  end.

Definition handleSuccessfulCharge (payload : Payload.t) (now : string) (st : Store)
    : (Exception + unit) * Store :=
  runInTransaction (handleSuccessfulCharge_body payload now) st.

Definition failure_metadata (payload : Payload.t) (now : string)
    (o : gmap string JsonValue) : gmap string JsonValue :=
  <["webhook_received" := JBool true]>
    (<["failure_time" := JString now]>
      (set_property "failure_reason"
         (JString <$> Payload.gateway_response (Payload.data payload)) o)).

Definition handleFailedCharge_body (payload : Payload.t) (now : string) : Tx unit :=
  let reference := Payload.reference (Payload.data payload) in
  let* found := read (find_transaction reference) in
  match found with
  | None =>
      throw (NotFoundException ("Transaction with reference " +:+ reference +:+ " not found"))
  | Some transaction =>
      if bool_decide (Transaction.status transaction = FAILED) then ret tt
      else
        let transaction := Transaction.with_status transaction FAILED in
        let* metadata := lift (parse_metadata (Transaction.metadata transaction)) in
        let metadata := failure_metadata payload now metadata in
        let transaction :=
          Transaction.with_metadata transaction (Some (JSON_stringify metadata)) in
        write (save_transaction transaction)
  end.

Definition handleFailedCharge (payload : Payload.t) (now : string) (st : Store)
    : (Exception + unit) * Store :=
  runInTransaction (handleFailedCharge_body payload now) st.

Definition handlePaystackWebhook (payload : Payload.t) (now : string) (st : Store)
    : (Exception + unit) * Store :=
  if bool_decide (Payload.event payload = "charge.success") then
    handleSuccessfulCharge payload now st
  else if bool_decide (Payload.event payload = "charge.failed") then
    handleFailedCharge payload now st
  else (inr tt, st).

(** ** Ledger engine *)

Module TransferResult.
Record t := mk { status : string; message : string }.
End TransferResult.

Definition senderTransaction (user : User.t) (dto : TransferDto.t)
    (senderWallet recipientWallet : Wallet.t) (id : nat) : Transaction.t :=
  {| Transaction.id := id;
     Transaction.walletId := Wallet.id senderWallet;
     Transaction.type := TRANSFER_OUT;
     Transaction.amount := TransferDto.amount dto;
     Transaction.status := SUCCESS;
     Transaction.reference := None;
     Transaction.recipientWalletNumber := Some (Wallet.walletNumber recipientWallet);
     Transaction.senderWalletNumber := None;
     Transaction.metadata :=
       Some (JSON_stringify
               (<["initiated_by" := JString (User.email user)]>
                 (<["recipient_wallet" := JString (Wallet.walletNumber recipientWallet)]>
                   (<["transfer_type" := JString "outgoing"]> ∅)))) |}.

Definition recipientTransaction (user : User.t) (dto : TransferDto.t)
    (senderWallet recipientWallet : Wallet.t) (id : nat) : Transaction.t :=
  {| Transaction.id := id;
     Transaction.walletId := Wallet.id recipientWallet;
     Transaction.type := TRANSFER_IN;
     Transaction.amount := TransferDto.amount dto;
     Transaction.status := SUCCESS;
     Transaction.reference := None;
     Transaction.recipientWalletNumber := None;
     Transaction.senderWalletNumber := Some (Wallet.walletNumber senderWallet);
     Transaction.metadata :=
       Some (JSON_stringify
               (<["sender_email" := JString (User.email user)]>
                 (<["sender_wallet" := JString (Wallet.walletNumber senderWallet)]>
                   (<["transfer_type" := JString "incoming"]> ∅)))) |}.

(** The [try] block of [transfer].  [timestamp] and [random] are
    [Date.now()] and [crypto.randomBytes(4).toString('hex')]; the
    [transferReference] built from them is not passed to either
    [create] call, as in the source. *)
Definition transfer_body (user : User.t) (dto : TransferDto.t)
    (timestamp random : string) : Tx TransferResult.t :=
  let* senderWallet :=
    findOneWalletLocked (λ w, bool_decide (Wallet.userId w = User.id user)) in
  match senderWallet with
  | None => throw (NotFoundException "Sender wallet not found")
  | Some senderWallet =>
      let* recipientWallet :=
        findOneWalletLocked
          (λ w, bool_decide (Wallet.walletNumber w = TransferDto.wallet_number dto)) in
      match recipientWallet with
      | None => throw (NotFoundException "Recipient wallet not found")
      | Some recipientWallet =>
          if bool_decide (Wallet.id senderWallet = Wallet.id recipientWallet) then
            throw (BadRequestException "Cannot transfer to yourself")
          else if Qlt_bool (Wallet.balance senderWallet) (TransferDto.amount dto) then
            throw (BadRequestException "Insufficient balance")
          else
            let senderWallet' :=
              Wallet.with_balance senderWallet
                (Wallet.balance senderWallet - TransferDto.amount dto)%Q in
            run write (save_wallet senderWallet') then
            let recipientWallet' :=
              Wallet.with_balance recipientWallet
                (Wallet.balance recipientWallet + TransferDto.amount dto)%Q in
            run write (save_wallet recipientWallet') then
            let transferReference := "TRANSFER_" +:+ timestamp +:+ "_" +:+ random in
            run write (insert_transaction
                         (senderTransaction user dto senderWallet' recipientWallet')) then
            run write (insert_transaction
                         (recipientTransaction user dto senderWallet' recipientWallet')) then
            ret {| TransferResult.status := "success";
                   TransferResult.message := "Transfer completed successfully" |}
      end
  end.

Definition transfer (user : User.t) (dto : TransferDto.t)
    (timestamp random : string) (st : Store) : (Exception + TransferResult.t) * Store :=
  if Qlt_bool (TransferDto.amount dto) 100 then
    (inl (BadRequestException "Minimum transfer amount is ₦100"), st)
  else runInTransaction (transfer_body user dto timestamp random) st.

(** The wallet row locks a [transfer] call takes, in order. *)
Definition transfer_locks (user : User.t) (dto : TransferDto.t)
    (timestamp random : string) (st : Store) : list string :=
  if Qlt_bool (TransferDto.amount dto) 100 then []
  else locksTaken (transfer_body user dto timestamp random) st.

Module Balance.
Record t := mk { balance : Q; walletNumber : string }.
End Balance.

Definition getBalance (user : User.t) (st : Store) : Exception + Balance.t :=
  match findOne (λ w, bool_decide (Wallet.userId w = User.id user)) (wallets st) with
  | None => inl (NotFoundException "Wallet not found")
  | Some wallet =>
      inr {| Balance.balance := Wallet.balance wallet;
             Balance.walletNumber := Wallet.walletNumber wallet |}
  end.

Module DepositStatus.
Record t := mk {
  reference : option string;
  status : TransactionStatus;
  amount : Q;
  metadata : option (gmap string JsonValue)
}.
End DepositStatus.

Definition getDepositStatus (user : User.t) (reference : string) (st : Store)
    : Exception + DepositStatus.t :=
  match find_transaction_with_wallet reference st with
  | None => inl (NotFoundException "Transaction not found")
  | Some (transaction, None) => inl TypeError
  | Some (transaction, Some wallet) =>
      if negb (bool_decide (Wallet.userId wallet = User.id user)) then
        inl (BadRequestException "Unauthorized access to transaction")
      else
        inr {| DepositStatus.reference := Transaction.reference transaction;
               DepositStatus.status := Transaction.status transaction;
               DepositStatus.amount := Transaction.amount transaction;
               DepositStatus.metadata :=
                 if truthy (Transaction.metadata transaction) then
                   match Transaction.metadata transaction with
                   | Some t =>
                       match JSON_parse t with
                       | inr o => Some o
                       | inl _ => None
                       end
                   | None => None
                   end
                 else None |}
  end.

(** [PaystackService.initializeTransaction]: the request it posts and
    the outcome of the HTTP call, which is an input. *)
Module Paystack.
Record request := mkRequest {
  email : string;
  amount : Q;
  reference : string;
  callback_url : string
}.
Record response := mkResponse {
  data_reference : string;
  data_authorization_url : string
}.
Record service := mkService {
  backendUrl : string;
  axios_post : request → Exception + response
}.

Definition initializeTransaction (svc : service) (email : string) (amount : Q)
    (reference : string) : Exception + response :=
  let payload :=
    {| email := email;
       amount := (amount * 100)%Q;
       reference := reference;
       callback_url := backendUrl svc +:+ "/wallet/paystack/callback" |} in
  axios_post svc payload.
End Paystack.

Module DepositResult.
Record t := mk { reference : string; authorization_url : string }.
End DepositResult.

Definition depositTransaction (wallet : Wallet.t) (dto : DepositDto.t)
    (reference : string) (id : nat) : Transaction.t :=
  {| Transaction.id := id;
     Transaction.walletId := Wallet.id wallet;
     Transaction.type := DEPOSIT;
     Transaction.amount := DepositDto.amount dto;
     Transaction.status := PENDING;
     Transaction.reference := Some reference;
     Transaction.recipientWalletNumber := None;
     Transaction.senderWalletNumber := None;
     Transaction.metadata := None |}.

(** [reference] is the result of [generateReference()]. *)
Definition initiateDeposit (svc : Paystack.service) (user : User.t) (dto : DepositDto.t)
    (reference : string) (st : Store) : (Exception + DepositResult.t) * Store :=
  match findOne (λ w, bool_decide (Wallet.userId w = User.id user)) (wallets st) with
  | None => (inl (NotFoundException "Wallet not found"), st)
  | Some wallet =>
      if Qlt_bool (DepositDto.amount dto) 100 then
        (inl (BadRequestException "Minimum deposit amount is ₦100"), st)
      else
        let st' := insert_transaction (depositTransaction wallet dto reference) st in
        match Paystack.initializeTransaction svc (User.email user)
                (DepositDto.amount dto) reference with
        | inl e => (inl e, st')
        | inr paystackResponse =>
            (inr {| DepositResult.reference := Paystack.data_reference paystackResponse;
                    DepositResult.authorization_url :=
                      Paystack.data_authorization_url paystackResponse |}, st')
        end
  end.

(** ** Sequences of operations *)

Inductive Op :=
| GetBalance (user : User.t)
| InitiateDeposit (svc : Paystack.service) (user : User.t) (dto : DepositDto.t)
    (reference : string)
| Transfer (user : User.t) (dto : TransferDto.t) (timestamp random : string)
| Webhook (payload : Payload.t) (now : string).

(** The store an operation commits. *)
Definition commit (op : Op) (st : Store) : Store :=
  match op with
  | GetBalance _ => st
  | InitiateDeposit svc user dto reference =>
      snd (initiateDeposit svc user dto reference st)
  | Transfer user dto timestamp random => snd (transfer user dto timestamp random st)
  | Webhook payload now => snd (handlePaystackWebhook payload now st)
  end.

(** The committed stores of a run, the initial one first. *)
Fixpoint committed_states (ops : list Op) (st : Store) : list Store :=
  match ops with
  | [] => [st]
  | op :: ops => st :: committed_states ops (commit op st)
  end.

Definition nonneg_balances (st : Store) : Prop :=
  Forall (λ w, 0 <= Wallet.balance w)%Q (wallets st).

(** A charge-succeeded notification reports a non-negative amount. *)
Definition nonneg_credit (op : Op) : Prop :=
  match op with
  | Webhook payload _ =>
      Payload.event payload = "charge.success" →
      (0 <= Payload.amount (Payload.data payload))%Q
  | _ => True
  end.

(** ** Row locks of concurrent sessions *)

(** A database session inside a transaction: the row locks it holds and
    those it still has to take, in order; it commits, and releases its
    locks, once it holds them all. *)
Inductive Session :=
| Running (held waiting : list string)
| Committed.

Definition holds (k : string) (s : Session) : bool :=
  match s with
  | Running held _ => bool_decide (k ∈ held)
  | Committed => false
  end.

(** One move of a session beside another one: take the next lock when
    the other session does not hold it, commit when no lock is left to
    take; [None] when the session has to wait or is finished. *)
Definition advance (s other : Session) : option Session :=
  match s with
  | Running held (k :: waiting) =>
      if holds k other then None else Some (Running (held ++ [k]) waiting)
  | Running held [] => Some Committed
  | Committed => None
  end.

Inductive Turn := First | Second.

Definition move (t : Turn) (c : Session * Session) : option (Session * Session) :=
  match t with
  | First => (λ s, (s, c.2)) <$> advance c.1 c.2
  | Second => (λ s, (c.1, s)) <$> advance c.2 c.1
  end.

(** A schedule is followed as far as its moves are possible. *)
Fixpoint schedule (ts : list Turn) (c : Session * Session) : option (Session * Session) :=
  match ts with
  | [] => Some c
  | t :: ts =>
      match move t c with
      | Some c' => schedule ts c'
      | None => None
      end
  end.

Definition deadlocked (c : Session * Session) : Prop :=
  c.1 ≠ Committed ∧ c.2 ≠ Committed ∧ move First c = None ∧ move Second c = None.

Definition start (plan1 plan2 : list string) : Session * Session :=
  (Running [] plan1, Running [] plan2).

(** Ascending order of wallet ids. *)
Fixpoint ascending (ids : list string) : bool :=
  match ids with
  | a :: (b :: _) as rest => String.ltb a b && ascending rest
  | _ => true
  end.

(** ** The rows the operations write *)

(** The stored metadata text [m] holds the object [o]: it is the text of
    [o], or it is absent or empty and [o] is the empty object. *)
Definition stored_object (m : option MetadataText) (o : gmap string JsonValue) : Prop :=
  m = Some (JsonObject o) ∨ ((m = None ∨ m = Some (NotJson "")) ∧ o = ∅).

(** The wallet row after a credit of [amount / 100]. *)
Definition credited (payload : Payload.t) (w : Wallet.t) : Wallet.t :=
  Wallet.with_balance w
    (Wallet.balance w + Payload.amount (Payload.data payload) / 100)%Q.

(** The entry after a charge-succeeded notification, [o] being its
    parsed metadata. *)
Definition succeeded (payload : Payload.t) (now : string) (e : Transaction.t)
    (o : gmap string JsonValue) : Transaction.t :=
  Transaction.with_metadata (Transaction.with_status e SUCCESS)
    (Some (JSON_stringify (success_metadata payload now o))).

(** The entry after a charge-failed notification. *)
Definition failed (payload : Payload.t) (now : string) (e : Transaction.t)
    (o : gmap string JsonValue) : Transaction.t :=
  Transaction.with_metadata (Transaction.with_status e FAILED)
    (Some (JSON_stringify (failure_metadata payload now o))).

Definition debited (dto : TransferDto.t) (w : Wallet.t) : Wallet.t :=
  Wallet.with_balance w (Wallet.balance w - TransferDto.amount dto)%Q.

Definition received (dto : TransferDto.t) (w : Wallet.t) : Wallet.t :=
  Wallet.with_balance w (Wallet.balance w + TransferDto.amount dto)%Q.

Definition not_found (reference : string) : Exception :=
  NotFoundException ("Transaction with reference " +:+ reference +:+ " not found").

Definition by_user (user : User.t) (w : Wallet.t) : bool :=
  bool_decide (Wallet.userId w = User.id user).

Definition by_number (dto : TransferDto.t) (w : Wallet.t) : bool :=
  bool_decide (Wallet.walletNumber w = TransferDto.wallet_number dto).

(** The store a transfer commits: both balances and both entries. *)
Definition transferred (user : User.t) (dto : TransferDto.t)
    (sender recipient : Wallet.t) (st : Store) : Store :=
  insert_transaction
    (recipientTransaction user dto (debited dto sender) (received dto recipient))
    (insert_transaction
       (senderTransaction user dto (debited dto sender) (received dto recipient))
       (save_wallet (received dto recipient) (save_wallet (debited dto sender) st))).


(** ** A small ledger to run the operations on *)

Module Example.

Definition alice : User.t := {| User.id := "u1"; User.email := "alice@example.com" |}.
Definition bob : User.t := {| User.id := "u2"; User.email := "bob@example.com" |}.
Definition carol : User.t := {| User.id := "u3"; User.email := "carol@example.com" |}.

Definition w1 : Wallet.t :=
  {| Wallet.id := "w1"; Wallet.userId := "u1";
     Wallet.walletNumber := "4000000001"; Wallet.balance := 1000 |}.
Definition w2 : Wallet.t :=
  {| Wallet.id := "w2"; Wallet.userId := "u2";
     Wallet.walletNumber := "4000000002"; Wallet.balance := 500 |}.

(** Wallet W1 holds 1000 and wallet W2 holds 500; no entry yet. *)
Definition ledger : Store :=
  {| wallets := [w1; w2]; transactions := []; next_transaction_id := 0 |}.

Definition to_bob (amount : Q) : TransferDto.t :=
  {| TransferDto.wallet_number := "4000000002"; TransferDto.amount := amount |}.
Definition to_alice (amount : Q) : TransferDto.t :=
  {| TransferDto.wallet_number := "4000000001"; TransferDto.amount := amount |}.
Definition to_nobody (amount : Q) : TransferDto.t :=
  {| TransferDto.wallet_number := "4999999999"; TransferDto.amount := amount |}.

Definition gateway : Paystack.service :=
  {| Paystack.backendUrl := "http://localhost:3000";
     Paystack.axios_post := λ req,
       inr {| Paystack.data_reference := Paystack.reference req;
              Paystack.data_authorization_url := "https://checkout.paystack.com/abc123" |} |}.

(** Alice has initiated a deposit of 5000 under reference [TXN_1]. *)
Definition pending_deposit : Store :=
  snd (initiateDeposit gateway alice {| DepositDto.amount := 5000 |} "TXN_1" ledger).

Definition charge (event : string) (amount : Q) (response : option string) : Payload.t :=
  {| Payload.event := event;
     Payload.data := {| Payload.reference := "TXN_1"; Payload.amount := amount;
                        Payload.gateway_response := response |} |}.

Definition charge_success : Payload.t := charge "charge.success" 500000 (Some "Successful").
Definition charge_failed : Payload.t := charge "charge.failed" 500000 (Some "Declined").

(** The deposit after a charge-failed, respectively a charge-succeeded,
    notification. *)
Definition failed_deposit : Store :=
  snd (handlePaystackWebhook charge_failed "2024-12-09T12:00:00.000Z" pending_deposit).
Definition settled_deposit : Store :=
  snd (handlePaystackWebhook charge_success "2024-12-09T12:00:00.000Z" pending_deposit).

(** A charge-succeeded notification of a negative amount for the pending
    deposit [TXN_1]. *)
Definition negative_charge : Payload.t := charge "charge.success" (-200000) None.

End Example.



(** ** Transaction history *)

(** One element of the array [getTransactions] returns.  [metadata] and
    [failure_reason] are present only when the stored metadata parses;
    a [failure_reason] of [null] and an absent one are both [None]. *)
Module TransactionView.
Record t := mk {
  id : nat;
  type : TransactionType;
  amount : Q;
  status : TransactionStatus;
  reference : option string;
  recipient_wallet_number : option string;
  sender_wallet_number : option string;
  created_at : nat;
  metadata : option (gmap string JsonValue);
  failure_reason : option JsonValue
}.
End TransactionView.

(** [v || null]: an absent property, the empty string and [false] are
    falsy. *)
Definition or_null (v : option JsonValue) : option JsonValue :=
  match v with
  | None => None
  | Some (JString "") => None
  | Some (JBool false) => None
  | Some x => Some x
  end.

Section History.

(** Modelled from the spec: the creation timestamp of an entry, a column
    of the [Transaction] entity that the store fills in. *)
Variable createdAt : Transaction.t → nat.

(** [order: { createdAt: 'DESC' }]. *)
Definition newer (x y : Transaction.t) : Prop := (createdAt y ≤ createdAt x)%nat.

#[local] Instance newer_dec : RelDecision newer.
Proof. intros x y. unfold newer. apply _. Defined.

(** [find({ where: { walletId }, order: { createdAt: 'DESC' }, take: 50 })]. *)
Definition find_history (walletId : string) (rows : list Transaction.t)
    : list Transaction.t :=
  take 50 (merge_sort newer (filter (λ e, Transaction.walletId e = walletId) rows)).

Definition baseTransaction (txn : Transaction.t) : TransactionView.t :=
  {| TransactionView.id := Transaction.id txn;
     TransactionView.type := Transaction.type txn;
     TransactionView.amount := Transaction.amount txn;
     TransactionView.status := Transaction.status txn;
     TransactionView.reference := Transaction.reference txn;
     TransactionView.recipient_wallet_number := Transaction.recipientWalletNumber txn;
     TransactionView.sender_wallet_number := Transaction.senderWalletNumber txn;
     TransactionView.created_at := createdAt txn;
     TransactionView.metadata := None;
     TransactionView.failure_reason := None |}.

Definition with_parsed_metadata (v : TransactionView.t) (o : gmap string JsonValue)
    : TransactionView.t :=
  {| TransactionView.id := TransactionView.id v;
     TransactionView.type := TransactionView.type v;
     TransactionView.amount := TransactionView.amount v;
     TransactionView.status := TransactionView.status v;
     TransactionView.reference := TransactionView.reference v;
     TransactionView.recipient_wallet_number := TransactionView.recipient_wallet_number v;
     TransactionView.sender_wallet_number := TransactionView.sender_wallet_number v;
     TransactionView.created_at := TransactionView.created_at v;
     TransactionView.metadata := Some o;
     TransactionView.failure_reason := or_null (o !! "failure_reason") |}.

(** The callback of [transactions.map]. *)
Definition view (txn : Transaction.t) : TransactionView.t :=
  if truthy (Transaction.metadata txn) then
    match Transaction.metadata txn with
    | Some t =>
        match JSON_parse t with
        | inr metadata => with_parsed_metadata (baseTransaction txn) metadata
        | inl _ => baseTransaction txn
        end
    | None => baseTransaction txn
    end
  else baseTransaction txn.

Definition getTransactions (user : User.t) (st : Store)
    : Exception + list TransactionView.t :=
  match findOne (λ w, bool_decide (Wallet.userId w = User.id user)) (wallets st) with
  | None => inl (NotFoundException "Wallet not found")
  | Some wallet => inr (view <$> find_history (Wallet.id wallet) (transactions st))
  end.

End History.

(** ** Webhook endpoint *)

Module WebhookAck.
Record t := mk { status : bool }.
End WebhookAck.

Section Endpoint.

(** [crypto.createHmac('sha512', key).update(payload).digest('hex')] and
    [JSON.stringify(req.body)]. *)
Variable hmac_sha512_hex : string → string → string.
Variable stringify : Payload.t → string.

(** [PaystackService.verifyWebhookSignature]; an absent header and the
    empty string are falsy. *)
Definition verifyWebhookSignature (paystackSecretKey payload : string)
    (signature : option string) : bool :=
  match signature with
  | None => false
  | Some "" => false
  | Some sig => bool_decide (hmac_sha512_hex paystackSecretKey payload = sig)
  end.

(** [WalletController.paystackWebhook]. *)
Definition paystackWebhook (paystackSecretKey : string) (body : Payload.t)
    (signature : option string) (now : string) (st : Store)
    : (Exception + WebhookAck.t) * Store :=
  match signature with
  | None => (inl (BadRequestException "Missing Paystack signature"), st)
  | Some "" => (inl (BadRequestException "Missing Paystack signature"), st)
  | Some _ =>
      let rawBody := stringify body in
      let isValid := verifyWebhookSignature paystackSecretKey rawBody signature in
      if negb isValid then (inl (BadRequestException "Invalid Paystack signature"), st)
      else
        match handlePaystackWebhook body now st with
        | (inl e, st') => (inl e, st')
        | (inr _, st') => (inr {| WebhookAck.status := true |}, st')
        end
  end.

End Endpoint.

(** ** Measures of a store *)

(** Primary keys of the wallet table are unique. *)
Definition unique_wallet_ids (st : Store) : Prop :=
  NoDup (Wallet.id <$> wallets st).

(** ** The arithmetic of the source in binary64 *)

Module Binary64.
Import PrimFloat.
Local Open Scope float_scope.

(** The numbers of [transfer]: [transferDto.amount < 100] (line 292),
    [Number(senderWallet.balance) < transferDto.amount] (line 328),
    [Number(senderWallet.balance) - transferDto.amount] (line 333) and
    [Number(recipientWallet.balance) + transferDto.amount] (line 337),
    for the balances of the two wallets found.  The result is the pair of
    balances written, sender first. *)
Definition transfer (senderBalance recipientBalance amount : float)
    : Exception + float * float :=
  if amount <? 100 then inl (BadRequestException "Minimum transfer amount is ₦100")
  else if senderBalance <? amount then inl (BadRequestException "Insufficient balance")
  else inr (senderBalance - amount, recipientBalance + amount).


End Binary64.

(** Every entry's metadata is absent, empty or an object text. *)
Definition object_metadata (st : Store) : Prop :=
  Forall (λ e, ∃ o, stored_object (Transaction.metadata e) o) (transactions st).

(** ** More example data *)

Module Example2.

(** A toy stand-in for the keyed hash: key and payload joined. *)
Definition toy_hmac (key payload : string) : string := key +:+ ":" +:+ payload.

Definition toy_stringify (p : Payload.t) : string :=
  Payload.event p +:+ "/" +:+ Payload.reference (Payload.data p).

(** The ledger after Alice's transfer of 300 to Bob. *)
Definition after_transfer : Store :=
  snd (transfer Example.alice (Example.to_bob 300) "1733779200000" "9f3c2a1b"
         Example.ledger).

(** An entry of Alice's wallet whose metadata is not JSON. *)
Definition broken_entry : Transaction.t :=
  {| Transaction.id := 7;
     Transaction.walletId := "w1";
     Transaction.type := DEPOSIT;
     Transaction.amount := 250;
     Transaction.status := PENDING;
     Transaction.reference := Some "TXN_7";
     Transaction.recipientWalletNumber := None;
     Transaction.senderWalletNumber := None;
     Transaction.metadata := Some (NotJson "{oops") |}.

Definition broken_ledger : Store :=
  {| wallets := [Example.w1; Example.w2];
     transactions := [broken_entry];
     next_transaction_id := 8 |}.

(** The ledger after Bob has then sent 200 back to Alice. *)
Definition after_two_transfers : Store :=
  snd (transfer Example.bob (Example.to_alice 200) "1733779200001" "0d4e5f6a"
         after_transfer).

End Example2.

(** * Properties *)

(** ** Numbers *)

Lemma Qlt_bool_true (x y : Q) : Qlt_bool x y = true ↔ (x < y)%Q.
Proof.
  unfold Qlt_bool. rewrite negb_true_iff. split.
  - intros E. apply Qnot_le_lt. intros L. apply Qle_bool_iff in L. congruence.
  - intros L. destruct (Qle_bool y x) eqn:E; [|done].
    apply Qle_bool_iff in E. exfalso. exact (Qlt_not_le _ _ L E).
Qed.

Lemma Qlt_bool_false (x y : Q) : Qlt_bool x y = false ↔ (y <= x)%Q.
Proof.
  unfold Qlt_bool. rewrite negb_false_iff. apply Qle_bool_iff.
Qed.

(** ** Tables *)

Section TableFacts.
Context {K A : Type} `{EqDecision K} (key : A → K).

Lemma has_key_true (k : K) (r : A) : has_key key k r = true ↔ key r = k.
Proof. unfold has_key. apply bool_decide_eq_true. Qed.

Lemma findOne_Some (p : A → bool) (rows : list A) (r : A) :
  findOne p rows = Some r → r ∈ rows ∧ p r = true.
Proof.
  intros E. apply find_some in E as [I E]. by apply list_elem_of_In in I.
Qed.

Lemma find_by_key_Some (k : K) (rows : list A) (r : A) :
  find_by_key key k rows = Some r → r ∈ rows ∧ key r = k.
Proof.
  intros E. apply findOne_Some in E as [I E]. by apply has_key_true in E.
Qed.

Lemma existsb_has_key (x : A) (rows : list A) (r : A) :
  r ∈ rows → key r = key x → existsb (has_key key (key x)) rows = true.
Proof.
  intros I E. apply existsb_exists. exists r. split.
  - by apply list_elem_of_In.
  - by apply has_key_true.
Qed.

(** After [save], a [where] clause that the saved entity satisfies, and
    that used to find a row with the same primary key, finds the saved
    entity. *)
Lemma findOne_save_found (p : A → bool) (x e : A) (rows : list A) :
  findOne p rows = Some e → key e = key x → p x = true →
  findOne p (save key x rows) = Some x.
Proof.
  intros F Ek Px. unfold save.
  destruct (findOne_Some _ _ _ F) as [I _].
  rewrite (existsb_has_key x rows e I Ek). clear I.
  induction rows as [|a rows IH]; [done|].
  unfold findOne in *. cbn in *. destruct (p a) eqn:Pa.
  - injection F as ->. rewrite (proj2 (has_key_true _ _) Ek). by rewrite Px.
  - destruct (has_key key (key x) a).
    + by rewrite Px.
    + rewrite Pa. by apply IH.
Qed.

Lemma find_by_key_save_eq (x : A) (rows : list A) :
  find_by_key key (key x) (save key x rows) = Some x.
Proof.
  unfold find_by_key, save, findOne.
  destruct (existsb (has_key key (key x)) rows) eqn:E.
  - induction rows as [|a rows IH]; [done|]. cbn in *.
    destruct (has_key key (key x) a) eqn:Ha.
    + by rewrite (proj2 (has_key_true _ _) eq_refl).
    + rewrite Ha. by apply IH.
  - induction rows as [|a rows IH]; cbn in *.
    + by rewrite (proj2 (has_key_true _ _) eq_refl).
    + apply orb_false_iff in E as [-> E]. by apply IH.
Qed.

Lemma find_by_key_save_ne (k : K) (x : A) (rows : list A) :
  k ≠ key x → find_by_key key k (save key x rows) = find_by_key key k rows.
Proof.
  intros N. unfold find_by_key, save, findOne.
  assert (Hx : has_key key k x = false).
  { apply not_true_is_false. intros E. apply has_key_true in E. done. }
  destruct (existsb (has_key key (key x)) rows).
  - induction rows as [|a rows IH]; [done|]. cbn.
    destruct (has_key key (key x) a) eqn:Ha.
    + rewrite Hx. apply has_key_true in Ha.
      assert (has_key key k a = false) as ->; [|done].
      apply not_true_is_false. intros E. apply has_key_true in E. congruence.
    + destruct (has_key key k a); [done|apply IH].
  - induction rows as [|a rows IH]; cbn.
    + by rewrite Hx.
    + destruct (has_key key k a); [done|apply IH].
Qed.

(** With unique primary keys, a row of the table is the row found by
    its key. *)
Lemma find_by_key_unique (rows : list A) (r : A) :
  NoDup (key <$> rows) → r ∈ rows → find_by_key key (key r) rows = Some r.
Proof.
  unfold find_by_key, findOne.
  induction rows as [|a rows IH]; intros D I; [by apply elem_of_nil in I|].
  cbn in *. apply NoDup_cons in D as [Na D].
  destruct (has_key key (key r) a) eqn:Ha.
  - apply has_key_true in Ha. apply elem_of_cons in I as [->|I]; [done|].
    exfalso. apply Na. rewrite Ha. by apply list_elem_of_fmap_2.
  - apply elem_of_cons in I as [->|I]; [|by apply IH].
    by rewrite (proj2 (has_key_true _ _) eq_refl) in Ha.
Qed.

Lemma Forall_save (P : A → Prop) (x : A) (rows : list A) :
  P x → Forall P rows → Forall P (save key x rows).
Proof.
  intros Px F. unfold save. destruct (existsb _ rows).
  - apply Forall_fmap. eapply Forall_impl; [exact F|].
    intros r Pr. cbn. by destruct (has_key key (key x) r).
  - apply Forall_app. split; [done|]. by constructor.
Qed.

End TableFacts.

(** ** The operations, case by case *)

Lemma handleSuccessfulCharge_cases (payload : Payload.t) (now : string) (st : Store) :
  handleSuccessfulCharge payload now st =
  match find_transaction_with_wallet (Payload.reference (Payload.data payload)) st with
  | None => (inl (not_found (Payload.reference (Payload.data payload))), st)
  | Some (e, joined) =>
      if bool_decide (Transaction.status e = SUCCESS) then (inr tt, st)
      else match parse_metadata (Transaction.metadata e), joined with
           | inl x, _ => (inl x, st)
           | inr o, None => (inl TypeError, st)
           | inr o, Some w =>
               (inr tt, save_wallet (credited payload w)
                          (save_transaction (succeeded payload now e o) st))
           end
  end.
Proof.
  unfold handleSuccessfulCharge, runInTransaction, handleSuccessfulCharge_body,
    bind, read, lift, write, throw, ret. cbn.
  destruct (find_transaction_with_wallet _ st) as [[e joined]|]; [|done].
  destruct (bool_decide (Transaction.status e = SUCCESS)); [done|]. cbn.
  destruct (parse_metadata (Transaction.metadata e)); [done|].
  by destruct joined.
Qed.

Lemma handleFailedCharge_cases (payload : Payload.t) (now : string) (st : Store) :
  handleFailedCharge payload now st =
  match find_transaction (Payload.reference (Payload.data payload)) st with
  | None => (inl (not_found (Payload.reference (Payload.data payload))), st)
  | Some e =>
      if bool_decide (Transaction.status e = FAILED) then (inr tt, st)
      else match parse_metadata (Transaction.metadata e) with
           | inl x => (inl x, st)
           | inr o => (inr tt, save_transaction (failed payload now e o) st)
           end
  end.
Proof.
  unfold handleFailedCharge, runInTransaction, handleFailedCharge_body,
    bind, read, lift, write, throw, ret. cbn.
  destruct (find_transaction _ st) as [e|]; [|done].
  destruct (bool_decide (Transaction.status e = FAILED)); [done|]. cbn.
  by destruct (parse_metadata (Transaction.metadata e)).
Qed.

Lemma transfer_cases (user : User.t) (dto : TransferDto.t)
    (timestamp random : string) (st : Store) :
  transfer user dto timestamp random st =
  if Qlt_bool (TransferDto.amount dto) 100 then
    (inl (BadRequestException "Minimum transfer amount is ₦100"), st)
  else match findOne (by_user user) (wallets st) with
  | None => (inl (NotFoundException "Sender wallet not found"), st)
  | Some sender =>
      match findOne (by_number dto) (wallets st) with
      | None => (inl (NotFoundException "Recipient wallet not found"), st)
      | Some recipient =>
          if bool_decide (Wallet.id sender = Wallet.id recipient) then
            (inl (BadRequestException "Cannot transfer to yourself"), st)
          else if Qlt_bool (Wallet.balance sender) (TransferDto.amount dto) then
            (inl (BadRequestException "Insufficient balance"), st)
          else
            (inr {| TransferResult.status := "success";
                    TransferResult.message := "Transfer completed successfully" |},
             transferred user dto sender recipient st)
      end
  end.
Proof.
  unfold transfer. destruct (Qlt_bool (TransferDto.amount dto) 100); [done|].
  unfold runInTransaction, transfer_body, bind, findOneWalletLocked, write, throw, ret.
  cbn. fold (by_user user) (by_number dto).
  destruct (findOne (by_user user) (wallets st)) as [sender|]; [|done]. cbn.
  destruct (findOne (by_number dto) (wallets st)) as [recipient|]; [|done].
  destruct (bool_decide (Wallet.id sender = Wallet.id recipient)); [done|].
  by destruct (Qlt_bool (Wallet.balance sender) (TransferDto.amount dto)).
Qed.

Lemma transfer_locks_cases (user : User.t) (dto : TransferDto.t)
    (timestamp random : string) (st : Store) :
  transfer_locks user dto timestamp random st =
  if Qlt_bool (TransferDto.amount dto) 100 then []
  else match findOne (by_user user) (wallets st) with
  | None => []
  | Some sender =>
      match findOne (by_number dto) (wallets st) with
      | None => [Wallet.id sender]
      | Some recipient => [Wallet.id sender; Wallet.id recipient]
      end
  end.
Proof.
  unfold transfer_locks. destruct (Qlt_bool (TransferDto.amount dto) 100); [done|].
  unfold locksTaken, transfer_body, bind, findOneWalletLocked, write, throw, ret.
  cbn. fold (by_user user) (by_number dto).
  destruct (findOne (by_user user) (wallets st)) as [sender|]; [|done]. cbn.
  destruct (findOne (by_number dto) (wallets st)) as [recipient|]; [|done].
  destruct (bool_decide (Wallet.id sender = Wallet.id recipient)); [done|].
  by destruct (Qlt_bool (Wallet.balance sender) (TransferDto.amount dto)).
Qed.

(** ** Transfer *)

Lemma find_wallet_transferred_sender (user : User.t) (dto : TransferDto.t)
    (sender recipient : Wallet.t) (st : Store) :
  Wallet.id sender ≠ Wallet.id recipient →
  find_wallet (Wallet.id sender) (transferred user dto sender recipient st)
  = Some (debited dto sender).
Proof.
  intros N. unfold find_wallet, transferred, insert_transaction, save_wallet.
  cbn [wallets]. rewrite find_by_key_save_ne; [|done].
  apply (find_by_key_save_eq Wallet.id (debited dto sender)).
Qed.

Lemma find_wallet_transferred_recipient (user : User.t) (dto : TransferDto.t)
    (sender recipient : Wallet.t) (st : Store) :
  find_wallet (Wallet.id recipient) (transferred user dto sender recipient st)
  = Some (received dto recipient).
Proof.
  unfold find_wallet, transferred, insert_transaction, save_wallet.
  cbn [wallets]. apply (find_by_key_save_eq Wallet.id (received dto recipient)).
Qed.




(** C4.  The refusals of a transfer, in the order the checks are made:
    an amount below 100 is refused with [BadRequestException] "Minimum
    transfer amount" (the spec's InvalidAmount); then a missing sender
    or recipient wallet with [NotFoundException]; then a transfer to the
    sender's own wallet with [BadRequestException] "Cannot transfer to
    yourself" (InvalidOperation); then a balance below the amount with
    [BadRequestException] "Insufficient balance" (InsufficientFunds).
    Every refusal, these or any other, leaves the whole store (wallet
    balances and ledger entries) as it was. *)
Theorem transfer_refusals (user : User.t) (dto : TransferDto.t)
    (timestamp random : string) (st : Store) :
  ((TransferDto.amount dto < 100)%Q →
   transfer user dto timestamp random st
   = (inl (BadRequestException "Minimum transfer amount is ₦100"), st)) ∧
  ((100 <= TransferDto.amount dto)%Q →
   findOne (by_user user) (wallets st) = None →
   transfer user dto timestamp random st
   = (inl (NotFoundException "Sender wallet not found"), st)) ∧
  (∀ sender,
     (100 <= TransferDto.amount dto)%Q →
     findOne (by_user user) (wallets st) = Some sender →
     findOne (by_number dto) (wallets st) = None →
     transfer user dto timestamp random st
     = (inl (NotFoundException "Recipient wallet not found"), st)) ∧
  (∀ sender recipient,
     (100 <= TransferDto.amount dto)%Q →
     findOne (by_user user) (wallets st) = Some sender →
     findOne (by_number dto) (wallets st) = Some recipient →
     Wallet.id sender = Wallet.id recipient →
     transfer user dto timestamp random st
     = (inl (BadRequestException "Cannot transfer to yourself"), st)) ∧
  (∀ sender recipient,
     (100 <= TransferDto.amount dto)%Q →
     findOne (by_user user) (wallets st) = Some sender →
     findOne (by_number dto) (wallets st) = Some recipient →
     Wallet.id sender ≠ Wallet.id recipient →
     (Wallet.balance sender < TransferDto.amount dto)%Q →
     transfer user dto timestamp random st
     = (inl (BadRequestException "Insufficient balance"), st)) ∧
  (∀ e st', transfer user dto timestamp random st = (inl e, st') → st' = st).
Proof.
  rewrite transfer_cases. repeat split.
  - intros L. apply Qlt_bool_true in L. by rewrite L.
  - intros L F. apply Qlt_bool_false in L. by rewrite L, F.
  - intros sender L Fs Fr. apply Qlt_bool_false in L. by rewrite L, Fs, Fr.
  - intros sender recipient L Fs Fr E. apply Qlt_bool_false in L.
    rewrite L, Fs, Fr. by rewrite bool_decide_eq_true_2.
  - intros sender recipient L Fs Fr N B. apply Qlt_bool_false in L.
    apply Qlt_bool_true in B. rewrite L, Fs, Fr, B.
    by rewrite bool_decide_eq_false_2.
  - intros e st'.
    destruct (Qlt_bool (TransferDto.amount dto) 100); [by intros [= <- <-]|].
    destruct (findOne (by_user user) (wallets st)) as [sender|]; [|by intros [= <- <-]].
    destruct (findOne (by_number dto) (wallets st)) as [recipient|];
      [|by intros [= <- <-]].
    destruct (bool_decide (Wallet.id sender = Wallet.id recipient));
      [by intros [= <- <-]|].
    by destruct (Qlt_bool (Wallet.balance sender) (TransferDto.amount dto));
      intros [= <- <-].
Qed.

(** A transfer of 50, of 300 to an unknown wallet number, of 300 by a
    user without a wallet, of 300 to oneself and of 5000 out of a
    balance of 1000. *)
Lemma transfer_refusals_witness :
  transfer Example.alice (Example.to_bob 50) "1733779200000" "9f3c2a1b" Example.ledger
  = (inl (BadRequestException "Minimum transfer amount is ₦100"), Example.ledger) ∧
  transfer Example.carol (Example.to_bob 300) "1733779200000" "9f3c2a1b" Example.ledger
  = (inl (NotFoundException "Sender wallet not found"), Example.ledger) ∧
  transfer Example.alice (Example.to_nobody 300) "1733779200000" "9f3c2a1b" Example.ledger
  = (inl (NotFoundException "Recipient wallet not found"), Example.ledger) ∧
  transfer Example.alice (Example.to_alice 300) "1733779200000" "9f3c2a1b" Example.ledger
  = (inl (BadRequestException "Cannot transfer to yourself"), Example.ledger) ∧
  transfer Example.alice (Example.to_bob 5000) "1733779200000" "9f3c2a1b" Example.ledger
  = (inl (BadRequestException "Insufficient balance"), Example.ledger).
Proof.
  split; [|split; [|split; [|split]]].
  - apply (transfer_refusals Example.alice (Example.to_bob 50)). reflexivity.
  - apply (transfer_refusals Example.carol (Example.to_bob 300));
      [discriminate|reflexivity].
  - apply (proj1 (proj2 (proj2 (transfer_refusals Example.alice (Example.to_nobody 300)
             "1733779200000" "9f3c2a1b" Example.ledger))) Example.w1);
      [discriminate|reflexivity|reflexivity].
  - apply (proj1 (proj2 (proj2 (proj2 (transfer_refusals Example.alice
             (Example.to_alice 300) "1733779200000" "9f3c2a1b" Example.ledger))))
             Example.w1 Example.w1);
      [discriminate|reflexivity|reflexivity|reflexivity].
  - apply (proj1 (proj2 (proj2 (proj2 (proj2 (transfer_refusals Example.alice
             (Example.to_bob 5000) "1733779200000" "9f3c2a1b" Example.ledger)))))
             Example.w1 Example.w2);
      [discriminate|reflexivity|reflexivity|discriminate|reflexivity].
Defined.

(** The two entries a successful transfer inserts, after the entries that
    were there. *)
Lemma transfer_entries (user : User.t) (dto : TransferDto.t)
    (timestamp random : string) (st st' : Store) (r : TransferResult.t) :
  transfer user dto timestamp random st = (inr r, st') →
  ∃ sender recipient,
    findOne (by_user user) (wallets st) = Some sender ∧
    findOne (by_number dto) (wallets st) = Some recipient ∧
    transactions st' =
      (transactions st ++
       [senderTransaction user dto (debited dto sender) (received dto recipient)
          (next_transaction_id st);
        recipientTransaction user dto (debited dto sender) (received dto recipient)
          (S (next_transaction_id st))])%list.
Proof.
  rewrite transfer_cases.
  destruct (Qlt_bool (TransferDto.amount dto) 100); [done|].
  destruct (findOne (by_user user) (wallets st)) as [sender|]; [|done].
  destruct (findOne (by_number dto) (wallets st)) as [recipient|]; [|done].
  destruct (bool_decide (Wallet.id sender = Wallet.id recipient)); [done|].
  destruct (Qlt_bool (Wallet.balance sender) (TransferDto.amount dto)); [done|].
  intros [= <- <-]. exists sender, recipient. repeat split.
  cbn. by rewrite <- app_assoc.
Qed.

(** C7.  In the scenario of the specification (W1 holds 1000, W2 holds
    500, 300 is transferred from W1 to W2) the transfer succeeds and
    inserts exactly two entries, a transfer-out on W1 naming W2 and a
    transfer-in on W2 naming W1, both in status success; neither carries
    a reference: the reference the operation generates is attached to no
    entry. *)
Theorem transfer_entries_without_reference :
  let out := transfer Example.alice (Example.to_bob 300) "1733779200000" "9f3c2a1b"
               Example.ledger in
  fst out = inr {| TransferResult.status := "success";
                   TransferResult.message := "Transfer completed successfully" |} ∧
  (λ e, (Transaction.walletId e, Transaction.type e, Transaction.status e,
         Transaction.recipientWalletNumber e, Transaction.senderWalletNumber e))
    <$> transactions (snd out)
  = [("w1", TRANSFER_OUT, SUCCESS, Some "4000000002", None);
     ("w2", TRANSFER_IN, SUCCESS, None, Some "4000000001")] ∧
  Transaction.reference <$> transactions (snd out) = [None; None].
Proof. repeat split. Qed.

(** ** Webhook reconciler *)

Lemma find_transaction_with_wallet_Some (r : string) (st : Store)
    (e : Transaction.t) (joined : option Wallet.t) :
  find_transaction_with_wallet r st = Some (e, joined) ↔
  find_transaction r st = Some e ∧ joined = find_wallet (Transaction.walletId e) st.
Proof.
  unfold find_transaction_with_wallet.
  destruct (find_transaction r st) as [e0|]; cbn; [|split; [done|by intros [? _]]].
  split.
  - intros E. by simplify_eq.
  - intros [E ->]. by simplify_eq.
Qed.

Lemma find_transaction_reference (r : string) (st : Store) (e : Transaction.t) :
  find_transaction r st = Some e → Transaction.reference e = Some r.
Proof.
  intros F. apply findOne_Some in F as [_ F]. by apply bool_decide_eq_true in F.
Qed.

(** Reading back by reference an entry that was just updated. *)
Lemma find_transaction_saved (r : string) (st : Store) (e e' : Transaction.t) :
  find_transaction r st = Some e →
  Transaction.id e' = Transaction.id e →
  Transaction.reference e' = Transaction.reference e →
  find_transaction r (save_transaction e' st) = Some e'.
Proof.
  intros F I R. unfold find_transaction, save_transaction. cbn [transactions].
  apply (findOne_save_found Transaction.id _ e' e); [done|done|].
  apply bool_decide_eq_true. rewrite R. by apply find_transaction_reference in F.
Qed.

Lemma find_wallet_id (wid : string) (st : Store) (w : Wallet.t) :
  find_wallet wid st = Some w → Wallet.id w = wid.
Proof. intros F. by apply find_by_key_Some in F as [_ F]. Qed.

(** What a charge-succeeded notification does to an entry that is not
    yet in status success, whose metadata parses and whose wallet
    exists. *)
Lemma handleSuccessfulCharge_applies (payload : Payload.t) (now : string) (st : Store)
    (e : Transaction.t) (o : gmap string JsonValue) (w : Wallet.t) :
  find_transaction (Payload.reference (Payload.data payload)) st = Some e →
  Transaction.status e ≠ SUCCESS →
  parse_metadata (Transaction.metadata e) = inr o →
  find_wallet (Transaction.walletId e) st = Some w →
  handleSuccessfulCharge payload now st
  = (inr tt, save_wallet (credited payload w)
               (save_transaction (succeeded payload now e o) st)).
Proof.
  intros F S P W. rewrite handleSuccessfulCharge_cases.
  rewrite (proj2 (find_transaction_with_wallet_Some _ _ _ _) (conj F eq_refl)).
  rewrite bool_decide_eq_false_2 by done. by rewrite P, W.
Qed.

Lemma handleSuccessfulCharge_rollback (payload : Payload.t) (now : string)
    (st st' : Store) (x : Exception) :
  handleSuccessfulCharge payload now st = (inl x, st') → st' = st.
Proof.
  rewrite handleSuccessfulCharge_cases.
  destruct (find_transaction_with_wallet _ st) as [[e joined]|]; [|by intros [= <- <-]].
  destruct (bool_decide (Transaction.status e = SUCCESS)); [done|].
  destruct (parse_metadata (Transaction.metadata e)); [by intros [= <- <-]|].
  destruct joined; [done|by intros [= <- <-]].
Qed.

Lemma success_metadata_lookup (payload : Payload.t) (now : string)
    (o : gmap string JsonValue) :
  success_metadata payload now o !! "webhook_received" = Some (JBool true) ∧
  success_metadata payload now o !! "success_time" = Some (JString now) ∧
  success_metadata payload now o !! "paystack_response"
  = Some (JString (or_default (Payload.gateway_response (Payload.data payload))
                     "success")) ∧
  ∀ k, k ≠ "webhook_received" → k ≠ "success_time" → k ≠ "paystack_response" →
       success_metadata payload now o !! k = o !! k.
Proof.
  unfold success_metadata. repeat split.
  - rewrite !lookup_insert_ne by done. apply lookup_insert_eq.
  - rewrite lookup_insert_ne by done. apply lookup_insert_eq.
  - apply lookup_insert_eq.
  - intros k N1 N2 N3. by rewrite !lookup_insert_ne.
Qed.

Lemma failure_metadata_lookup (payload : Payload.t) (now : string)
    (o : gmap string JsonValue) :
  failure_metadata payload now o !! "webhook_received" = Some (JBool true) ∧
  failure_metadata payload now o !! "failure_time" = Some (JString now) ∧
  failure_metadata payload now o !! "failure_reason"
  = JString <$> Payload.gateway_response (Payload.data payload) ∧
  ∀ k, k ≠ "webhook_received" → k ≠ "failure_time" → k ≠ "failure_reason" →
       failure_metadata payload now o !! k = o !! k.
Proof.
  unfold failure_metadata, set_property. repeat split.
  - apply lookup_insert_eq.
  - rewrite lookup_insert_ne by done. apply lookup_insert_eq.
  - rewrite !lookup_insert_ne by done.
    destruct (Payload.gateway_response (Payload.data payload));
      cbn [fmap option_fmap option_map].
    + by rewrite lookup_insert_eq.
    + by rewrite lookup_delete_eq.
  - intros k N1 N2 N3. rewrite !lookup_insert_ne by done.
    destruct (Payload.gateway_response (Payload.data payload));
      cbn [fmap option_fmap option_map].
    + by rewrite lookup_insert_ne.
    + by rewrite lookup_delete_ne.
Qed.

Lemma find_after_charge_success (payload : Payload.t) (now : string) (st : Store)
    (e : Transaction.t) (o : gmap string JsonValue) (w : Wallet.t) :
  find_transaction (Payload.reference (Payload.data payload)) st = Some e →
  find_wallet (Transaction.walletId e) st = Some w →
  let st' := save_wallet (credited payload w)
               (save_transaction (succeeded payload now e o) st) in
  find_transaction (Payload.reference (Payload.data payload)) st'
  = Some (succeeded payload now e o) ∧
  find_wallet (Transaction.walletId e) st' = Some (credited payload w).
Proof.
  intros F W st'. split.
  - by apply (find_transaction_saved _ st e).
  - apply find_wallet_id in W as <-.
    apply (find_by_key_save_eq Wallet.id (credited payload w)).
Qed.

Lemma stored_object_parse (m : option MetadataText) (o : gmap string JsonValue) :
  stored_object m o → parse_metadata m = inr o.
Proof. by intros [->|[[->| ->] ->]]. Qed.

(** C5.  A charge-succeeded notification for an entry that exists, is
    not yet in status success, belongs to an existing wallet, and whose
    stored metadata is an object text (or is absent or empty, which counts
    as the empty object): the call returns normally; the entry read back
    by its reference is in status success and nothing else of it has
    changed but the metadata; the metadata text now stored is that of an
    object with [webhook_received] true, [success_time] the time of the
    call, [paystack_response] the gateway response of the notification
    (or "success" when the notification has none) and every other key of
    the former object as it was; the wallet read back by its id has its
    former balance plus the notified amount divided by 100 and is
    otherwise unchanged.  The three writes are one transaction: a call
    that throws leaves the store as it was. *)
Theorem charge_success_settles (payload : Payload.t) (now : string) (st : Store) :
  (∀ e o w,
     find_transaction (Payload.reference (Payload.data payload)) st = Some e →
     Transaction.status e ≠ SUCCESS →
     stored_object (Transaction.metadata e) o →
     find_wallet (Transaction.walletId e) st = Some w →
     ∃ st' e' o' w',
       handleSuccessfulCharge payload now st = (inr tt, st') ∧
       find_transaction (Payload.reference (Payload.data payload)) st' = Some e' ∧
       Transaction.status e' = SUCCESS ∧
       Transaction.metadata e' = Some (JsonObject o') ∧
       o' !! "webhook_received" = Some (JBool true) ∧
       o' !! "success_time" = Some (JString now) ∧
       (∀ response, Payload.gateway_response (Payload.data payload) = Some response →
          response ≠ "" → o' !! "paystack_response" = Some (JString response)) ∧
       (Payload.gateway_response (Payload.data payload) = None ∨
        Payload.gateway_response (Payload.data payload) = Some "" →
        o' !! "paystack_response" = Some (JString "success")) ∧
       (∀ k, k ≠ "webhook_received" → k ≠ "success_time" → k ≠ "paystack_response" →
             o' !! k = o !! k) ∧
       Transaction.with_metadata (Transaction.with_status e' (Transaction.status e))
         (Transaction.metadata e) = e ∧
       find_wallet (Transaction.walletId e) st' = Some w' ∧
       Wallet.balance w'
       = (Wallet.balance w + Payload.amount (Payload.data payload) / 100)%Q ∧
       Wallet.with_balance w' (Wallet.balance w) = w) ∧
  (∀ x st', handleSuccessfulCharge payload now st = (inl x, st') → st' = st).
Proof.
  split; [|intros x st'; apply handleSuccessfulCharge_rollback].
  intros e o w F S M W. pose proof (stored_object_parse _ _ M) as P.
  exists (save_wallet (credited payload w)
            (save_transaction (succeeded payload now e o) st)),
    (succeeded payload now e o), (success_metadata payload now o), (credited payload w).
  destruct (find_after_charge_success payload now st e o w F W) as [F' W'].
  destruct (success_metadata_lookup payload now o) as (M1 & M2 & M3 & M4).
  split; [by apply handleSuccessfulCharge_applies|].
  split; [exact F'|]. split; [done|]. split; [done|].
  split; [exact M1|]. split; [exact M2|]. split; [|split].
  - intros response R N. rewrite M3, R. by destruct response.
  - intros [R|R]; by rewrite M3, R.
  - split; [exact M4|]. split; [by destruct e|]. split; [exact W'|].
    split; [done|by destruct w].
Qed.

(** The scenario of the specification: a deposit of 5000 is pending
    under [TXN_1] and the gateway notifies 500000 minor units with the
    response "Successful"; the entry is settled, the response is in the
    stored metadata, and the wallet, which held 1000, holds
    1000 + 500000 / 100.  And the same notification for the deposit after
    it was marked failed with the reason "Declined": the reason is still in
    the stored metadata, beside the response. *)
Lemma charge_success_settles_witness :
  (∃ st' e' o' w',
     handleSuccessfulCharge Example.charge_success "2024-12-09T12:00:00.000Z"
       Example.pending_deposit = (inr tt, st') ∧
     find_transaction "TXN_1" st' = Some e' ∧
     Transaction.status e' = SUCCESS ∧
     Transaction.metadata e' = Some (JsonObject o') ∧
     o' !! "paystack_response" = Some (JString "Successful") ∧
     o' !! "webhook_received" = Some (JBool true) ∧
     find_wallet "w1" st' = Some w' ∧
     Wallet.balance w' = (1000 + 500000 / 100)%Q ∧
     (Wallet.balance w' - 1000 == 5000)%Q) ∧
  (∃ st' e' o',
     handleSuccessfulCharge Example.charge_success "2024-12-09T12:05:00.000Z"
       Example.failed_deposit = (inr tt, st') ∧
     find_transaction "TXN_1" st' = Some e' ∧
     Transaction.metadata e' = Some (JsonObject o') ∧
     o' !! "paystack_response" = Some (JString "Successful") ∧
     o' !! "failure_reason" = Some (JString "Declined")).
Proof.
  split.
  - destruct (proj1 (charge_success_settles Example.charge_success
                       "2024-12-09T12:00:00.000Z" Example.pending_deposit)
                (depositTransaction Example.w1 {| DepositDto.amount := 5000 |} "TXN_1" 0)
                ∅ Example.w1)
      as (st' & e' & o' & w' & H & F & S & T & M1 & _ & M3 & _ & _ & _ & W & B & _).
    + reflexivity.
    + discriminate.
    + right. split; [by left|reflexivity].
    + reflexivity.
    + exists st', e', o', w'. split; [exact H|]. split; [exact F|]. split; [exact S|].
      split; [exact T|]. split; [by apply (M3 "Successful")|]. split; [exact M1|].
      split; [exact W|]. split; [exact B|by rewrite B].
  - destruct (proj1 (charge_success_settles Example.charge_success
                       "2024-12-09T12:05:00.000Z" Example.failed_deposit)
                (failed Example.charge_failed "2024-12-09T12:00:00.000Z"
                   (depositTransaction Example.w1 {| DepositDto.amount := 5000 |}
                      "TXN_1" 0) ∅)
                (failure_metadata Example.charge_failed "2024-12-09T12:00:00.000Z" ∅)
                Example.w1)
      as (st' & e' & o' & w' & H & F & _ & T & _ & _ & M3 & _ & K & _).
    + reflexivity.
    + discriminate.
    + by left.
    + reflexivity.
    + exists st', e', o'. split; [exact H|]. split; [exact F|]. split; [exact T|].
      split; [by apply (M3 "Successful")|].
      rewrite K by done. reflexivity.
Defined.

(** C6.  A charge-succeeded notification for an entry in status failed
    (whose metadata parses and whose wallet exists) is not refused: the
    call returns normally, the entry read back by its reference is in
    status success and the wallet read back by its id has been credited
    with the notified amount divided by 100. *)
Theorem charge_success_recovers_failed (payload : Payload.t) (now : string) (st : Store)
    (e : Transaction.t) (o : gmap string JsonValue) (w : Wallet.t) :
  find_transaction (Payload.reference (Payload.data payload)) st = Some e →
  Transaction.status e = FAILED →
  parse_metadata (Transaction.metadata e) = inr o →
  find_wallet (Transaction.walletId e) st = Some w →
  ∃ st',
    handleSuccessfulCharge payload now st = (inr tt, st') ∧
    Transaction.status <$> find_transaction (Payload.reference (Payload.data payload)) st'
    = Some SUCCESS ∧
    Wallet.balance <$> find_wallet (Transaction.walletId e) st'
    = Some (Wallet.balance w + Payload.amount (Payload.data payload) / 100)%Q.
Proof.
  intros F S P W.
  destruct (find_after_charge_success payload now st e o w F W) as [F' W'].
  eexists. split.
  - apply (handleSuccessfulCharge_applies payload now st e o w); [done| |done|done].
    by rewrite S.
  - by rewrite F', W'.
Qed.

(** The deposit [TXN_1] was marked failed by a charge-failed
    notification; a later charge-succeeded notification settles it. *)
Lemma charge_success_recovers_failed_witness :
  ∃ st',
    handleSuccessfulCharge Example.charge_success "2024-12-09T12:05:00.000Z"
      Example.failed_deposit = (inr tt, st') ∧
    Transaction.status <$> find_transaction "TXN_1" st' = Some SUCCESS ∧
    Wallet.balance <$> find_wallet "w1" st' = Some (1000 + 500000 / 100)%Q.
Proof.
  apply (charge_success_recovers_failed Example.charge_success
           "2024-12-09T12:05:00.000Z" Example.failed_deposit
           (failed Example.charge_failed "2024-12-09T12:00:00.000Z"
              (depositTransaction Example.w1 {| DepositDto.amount := 5000 |} "TXN_1" 0) ∅)
           (failure_metadata Example.charge_failed "2024-12-09T12:00:00.000Z" ∅)
           Example.w1); reflexivity.
Defined.

Lemma handleFailedCharge_applies (payload : Payload.t) (now : string) (st : Store)
    (e : Transaction.t) (o : gmap string JsonValue) :
  find_transaction (Payload.reference (Payload.data payload)) st = Some e →
  Transaction.status e ≠ FAILED →
  parse_metadata (Transaction.metadata e) = inr o →
  handleFailedCharge payload now st
  = (inr tt, save_transaction (failed payload now e o) st).
Proof.
  intros F S P. rewrite handleFailedCharge_cases, F.
  rewrite bool_decide_eq_false_2 by done. by rewrite P.
Qed.

(** C10.  A charge-failed notification for an entry in status success
    (whose stored metadata is an object text, or is absent or empty) is
    applied, not skipped: the call returns normally; the entry read back
    by its reference is in status failed and nothing else of it has
    changed but the metadata; the metadata text now stored is that of an
    object with [failure_reason] the gateway response of the notification
    (no such key when the notification has none), [failure_time] the time
    of the call, [webhook_received] true and every other key of the
    former object as it was; and the wallet table is exactly what it was,
    so the balance credited for the entry stays. *)
Theorem charge_failed_overrides_success (payload : Payload.t) (now : string) (st : Store)
    (e : Transaction.t) (o : gmap string JsonValue) :
  find_transaction (Payload.reference (Payload.data payload)) st = Some e →
  Transaction.status e = SUCCESS →
  stored_object (Transaction.metadata e) o →
  ∃ st' e' o',
    handleFailedCharge payload now st = (inr tt, st') ∧
    find_transaction (Payload.reference (Payload.data payload)) st' = Some e' ∧
    Transaction.status e' = FAILED ∧
    Transaction.metadata e' = Some (JsonObject o') ∧
    o' !! "failure_reason" = JString <$> Payload.gateway_response (Payload.data payload) ∧
    o' !! "failure_time" = Some (JString now) ∧
    o' !! "webhook_received" = Some (JBool true) ∧
    (∀ k, k ≠ "webhook_received" → k ≠ "failure_time" → k ≠ "failure_reason" →
          o' !! k = o !! k) ∧
    Transaction.with_metadata (Transaction.with_status e' SUCCESS)
      (Transaction.metadata e) = e ∧
    wallets st' = wallets st.
Proof.
  intros F S M. pose proof (stored_object_parse _ _ M) as P.
  exists (save_transaction (failed payload now e o) st), (failed payload now e o),
    (failure_metadata payload now o).
  destruct (failure_metadata_lookup payload now o) as (M1 & M2 & M3 & M4).
  split.
  { apply handleFailedCharge_applies; [done| |done]. by rewrite S. }
  split; [by apply (find_transaction_saved _ st e)|].
  split; [done|]. split; [done|]. split; [exact M3|]. split; [exact M2|].
  split; [exact M1|]. split; [exact M4|]. split; [|done].
  rewrite <- S. by destruct e.
Qed.

(** The deposit [TXN_1] was settled with the response "Successful" and
    the wallet credited to 1000 + 500000 / 100; a charge-failed
    notification with the reason "Declined" then marks the entry failed,
    stores the reason beside the response, and leaves the balance. *)
Lemma charge_failed_overrides_success_witness :
  ∃ st' e' o',
    handleFailedCharge Example.charge_failed "2024-12-09T12:05:00.000Z"
      Example.settled_deposit = (inr tt, st') ∧
    find_transaction "TXN_1" st' = Some e' ∧
    Transaction.status e' = FAILED ∧
    Transaction.metadata e' = Some (JsonObject o') ∧
    o' !! "failure_reason" = Some (JString "Declined") ∧
    o' !! "failure_time" = Some (JString "2024-12-09T12:05:00.000Z") ∧
    o' !! "paystack_response" = Some (JString "Successful") ∧
    Wallet.balance <$> find_wallet "w1" st' = Some (1000 + 500000 / 100)%Q.
Proof.
  destruct (charge_failed_overrides_success Example.charge_failed
              "2024-12-09T12:05:00.000Z" Example.settled_deposit
              (succeeded Example.charge_success "2024-12-09T12:00:00.000Z"
                 (depositTransaction Example.w1 {| DepositDto.amount := 5000 |} "TXN_1" 0)
                 ∅)
              (success_metadata Example.charge_success "2024-12-09T12:00:00.000Z" ∅)
              eq_refl eq_refl ltac:(by left))
    as (st' & e' & o' & H & F & S & T & M1 & M2 & _ & K & _ & W).
  exists st', e', o'. split; [exact H|]. split; [exact F|]. split; [exact S|].
  split; [exact T|]. split; [exact M1|]. split; [exact M2|].
  split; [by rewrite K|]. unfold find_wallet. by rewrite W.
Defined.

(** *** Duplicate deliveries *)

Lemma handleSuccessfulCharge_noop (payload : Payload.t) (now : string) (st : Store)
    (e : Transaction.t) :
  find_transaction (Payload.reference (Payload.data payload)) st = Some e →
  Transaction.status e = SUCCESS →
  handleSuccessfulCharge payload now st = (inr tt, st).
Proof.
  intros F S. rewrite handleSuccessfulCharge_cases.
  rewrite (proj2 (find_transaction_with_wallet_Some _ _ _ _) (conj F eq_refl)).
  by rewrite bool_decide_eq_true_2.
Qed.

Lemma handleFailedCharge_noop (payload : Payload.t) (now : string) (st : Store)
    (e : Transaction.t) :
  find_transaction (Payload.reference (Payload.data payload)) st = Some e →
  Transaction.status e = FAILED →
  handleFailedCharge payload now st = (inr tt, st).
Proof.
  intros F S. rewrite handleFailedCharge_cases, F.
  by rewrite bool_decide_eq_true_2.
Qed.

Lemma handleSuccessfulCharge_twice (payload : Payload.t) (now now' : string) (st : Store) :
  handleSuccessfulCharge payload now' (snd (handleSuccessfulCharge payload now st))
  = handleSuccessfulCharge payload now st.
Proof.
  rewrite (handleSuccessfulCharge_cases payload now st).
  destruct (find_transaction_with_wallet _ st) as [[e joined]|] eqn:F; cbn [snd].
  - destruct (bool_decide (Transaction.status e = SUCCESS)) eqn:S; cbn [snd].
    { by rewrite handleSuccessfulCharge_cases, F, S. }
    destruct (parse_metadata (Transaction.metadata e)) as [x|o] eqn:P; cbn [snd].
    { by rewrite handleSuccessfulCharge_cases, F, S, P. }
    destruct joined as [w|]; cbn [snd].
    2: { by rewrite handleSuccessfulCharge_cases, F, S, P. }
    apply find_transaction_with_wallet_Some in F as [F W]. symmetry in W.
    destruct (find_after_charge_success payload now st e o w F W) as [F' _].
    by apply (handleSuccessfulCharge_noop payload now' _ (succeeded payload now e o)).
  - by rewrite handleSuccessfulCharge_cases, F.
Qed.

Lemma handleFailedCharge_twice (payload : Payload.t) (now now' : string) (st : Store) :
  handleFailedCharge payload now' (snd (handleFailedCharge payload now st))
  = handleFailedCharge payload now st.
Proof.
  rewrite (handleFailedCharge_cases payload now st).
  destruct (find_transaction _ st) as [e|] eqn:F; cbn [snd].
  - destruct (bool_decide (Transaction.status e = FAILED)) eqn:S; cbn [snd].
    { by rewrite handleFailedCharge_cases, F, S. }
    destruct (parse_metadata (Transaction.metadata e)) as [x|o] eqn:P; cbn [snd].
    { by rewrite handleFailedCharge_cases, F, S, P. }
    apply (handleFailedCharge_noop payload now' _ (failed payload now e o)); [|done].
    by apply (find_transaction_saved _ st e).
  - by rewrite handleFailedCharge_cases, F.
Qed.

(** C2.  Delivering a notification a second time (at any later time)
    returns what the first delivery returned and leaves the store the
    first delivery left: wallets and entries are those of a single
    delivery.  In particular a charge-succeeded notification for an entry
    already in status success, and a charge-failed notification for an
    entry already in status failed, return normally and leave the store
    as it is. *)
Theorem webhook_delivery_idempotent (payload : Payload.t) (now now' : string) (st : Store) :
  handlePaystackWebhook payload now' (snd (handlePaystackWebhook payload now st))
  = handlePaystackWebhook payload now st ∧
  handleSuccessfulCharge payload now' (snd (handleSuccessfulCharge payload now st))
  = handleSuccessfulCharge payload now st ∧
  handleFailedCharge payload now' (snd (handleFailedCharge payload now st))
  = handleFailedCharge payload now st ∧
  (∀ e, find_transaction (Payload.reference (Payload.data payload)) st = Some e →
        Transaction.status e = SUCCESS →
        handleSuccessfulCharge payload now st = (inr tt, st)) ∧
  (∀ e, find_transaction (Payload.reference (Payload.data payload)) st = Some e →
        Transaction.status e = FAILED →
        handleFailedCharge payload now st = (inr tt, st)).
Proof.
  split; [|split; [|split; [|split]]].
  - unfold handlePaystackWebhook.
    destruct (bool_decide (Payload.event payload = "charge.success")).
    + apply handleSuccessfulCharge_twice.
    + destruct (bool_decide (Payload.event payload = "charge.failed")); [|done].
      apply handleFailedCharge_twice.
  - apply handleSuccessfulCharge_twice.
  - apply handleFailedCharge_twice.
  - intros e. apply handleSuccessfulCharge_noop.
  - intros e. apply handleFailedCharge_noop.
Qed.

(** The settled deposit [TXN_1]: a second charge-succeeded notification
    changes nothing, and the wallet has been credited once. *)
Lemma webhook_delivery_idempotent_witness :
  handleSuccessfulCharge Example.charge_success "2024-12-09T12:05:00.000Z"
    Example.settled_deposit = (inr tt, Example.settled_deposit) ∧
  Wallet.balance <$> find_wallet "w1" Example.settled_deposit
  = Some (1000 + 500000 / 100)%Q.
Proof.
  split; [|reflexivity].
  apply (proj1 (proj2 (proj2 (proj2 (webhook_delivery_idempotent Example.charge_success
           "2024-12-09T12:05:00.000Z" "2024-12-09T12:05:00.000Z"
           Example.settled_deposit))))
           (succeeded Example.charge_success "2024-12-09T12:00:00.000Z"
              (depositTransaction Example.w1 {| DepositDto.amount := 5000 |} "TXN_1" 0)
              ∅)); reflexivity.
Defined.

(** ** Deposit status *)

(** C8.  When the entry with the given reference belongs to a wallet
    whose owner is not the caller, [getDepositStatus] throws
    [BadRequestException] "Unauthorized access to transaction" and so
    returns no field of the entry; it throws [NotFoundException]
    exactly when no entry carries the reference. *)
Theorem getDepositStatus_isolation (user : User.t) (reference : string) (st : Store) :
  (∀ e w,
     find_transaction reference st = Some e →
     find_wallet (Transaction.walletId e) st = Some w →
     Wallet.userId w ≠ User.id user →
     getDepositStatus user reference st
     = inl (BadRequestException "Unauthorized access to transaction")) ∧
  ((∃ message, getDepositStatus user reference st = inl (NotFoundException message))
   ↔ find_transaction reference st = None).
Proof.
  unfold getDepositStatus, find_transaction_with_wallet. split.
  - intros e w -> W N. cbn. rewrite W. by rewrite bool_decide_eq_false_2.
  - destruct (find_transaction reference st) as [e|]; cbn.
    + split; [|done]. intros [message E].
      destruct (find_wallet (Transaction.walletId e) st) as [w|]; [|done].
      by destruct (bool_decide (Wallet.userId w = User.id user)).
    + split; [done|]. by eexists.
Qed.

(** Bob asks for the status of Alice's deposit [TXN_1]. *)
Lemma getDepositStatus_isolation_witness :
  getDepositStatus Example.bob "TXN_1" Example.pending_deposit
  = inl (BadRequestException "Unauthorized access to transaction").
Proof.
  apply (proj1 (getDepositStatus_isolation Example.bob "TXN_1" Example.pending_deposit)
           (depositTransaction Example.w1 {| DepositDto.amount := 5000 |} "TXN_1" 0)
           Example.w1); [reflexivity|reflexivity|discriminate].
Defined.

(** ** Lock order *)

(** Two sessions whose plans take the same two rows in opposite orders block
    each other once each has taken its first lock. *)
Lemma opposite_plans_deadlock (a b : string) :
  a ≠ b →
  ∃ c, schedule [First; Second] (start [a; b] [b; a]) = Some c ∧ deadlocked c.
Proof.
  intros N. exists (Running [a] [b], Running [b] [a]).
  assert (A : bool_decide (a ∈ [b]) = false).
  { apply bool_decide_eq_false. rewrite list_elem_of_singleton. done. }
  assert (B : bool_decide (b ∈ [a]) = false).
  { apply bool_decide_eq_false. rewrite list_elem_of_singleton. done. }
  assert (A' : bool_decide (a ∈ [a]) = true).
  { apply bool_decide_eq_true. by apply list_elem_of_singleton. }
  assert (B' : bool_decide (b ∈ [b]) = true).
  { apply bool_decide_eq_true. by apply list_elem_of_singleton. }
  split.
  - cbn. rewrite bool_decide_eq_false_2 by apply not_elem_of_nil. cbn.
    by rewrite B.
  - repeat split; try done; cbn.
    + by rewrite B'.
    + by rewrite A'.
Qed.

(** C9 (as the code has it).  A transfer that passes the amount check and
    finds both wallets locks the sender's row first and the recipient's
    row second, whatever their ids.  Hence, for two wallets with distinct
    ids, the transfer from the first owner to the second wallet and the
    mirror transfer take the two locks in opposite orders, and the
    schedule in which each takes its first lock ends in a state where both
    wait for the other. *)
Theorem transfer_locks_sender_first (user1 user2 : User.t) (dto1 dto2 : TransferDto.t)
    (timestamp1 random1 timestamp2 random2 : string) (st : Store) (wa wb : Wallet.t) :
  (100 <= TransferDto.amount dto1)%Q →
  (100 <= TransferDto.amount dto2)%Q →
  findOne (by_user user1) (wallets st) = Some wa →
  findOne (by_number dto1) (wallets st) = Some wb →
  findOne (by_user user2) (wallets st) = Some wb →
  findOne (by_number dto2) (wallets st) = Some wa →
  Wallet.id wa ≠ Wallet.id wb →
  transfer_locks user1 dto1 timestamp1 random1 st = [Wallet.id wa; Wallet.id wb] ∧
  transfer_locks user2 dto2 timestamp2 random2 st = [Wallet.id wb; Wallet.id wa] ∧
  ∃ c, schedule [First; Second]
         (start (transfer_locks user1 dto1 timestamp1 random1 st)
                (transfer_locks user2 dto2 timestamp2 random2 st)) = Some c ∧
       deadlocked c.
Proof.
  intros L1 L2 F1 F2 F3 F4 N.
  apply Qlt_bool_false in L1, L2.
  rewrite !transfer_locks_cases, L1, L2, F1, F2, F3, F4.
  split; [done|]. split; [done|]. by apply opposite_plans_deadlock.
Qed.

Lemma transfer_locks_sender_first_witness :
  transfer_locks Example.alice (Example.to_bob 300) "1733779200000" "9f3c2a1b"
    Example.ledger = ["w1"; "w2"] ∧
  transfer_locks Example.bob (Example.to_alice 200) "1733779200001" "0d4e5f6a"
    Example.ledger = ["w2"; "w1"].
Proof.
  destruct (transfer_locks_sender_first Example.alice Example.bob
              (Example.to_bob 300) (Example.to_alice 200)
              "1733779200000" "9f3c2a1b" "1733779200001" "0d4e5f6a"
              Example.ledger Example.w1 Example.w2) as (H1 & H2 & _);
    [discriminate|discriminate|reflexivity|reflexivity|reflexivity|reflexivity
    |discriminate|].
  by split.
Defined.

(** C9 (as the specification states it) fails: Bob's transfer to Alice
    locks [w2] before [w1], which is not the ascending order of ids, and
    run beside Alice's transfer to Bob it can reach a deadlock. *)
Lemma transfer_locks_not_ascending :
  ascending (transfer_locks Example.bob (Example.to_alice 200) "1733779200001"
               "0d4e5f6a" Example.ledger) = false ∧
  ∃ c, schedule [First; Second]
         (start (transfer_locks Example.alice (Example.to_bob 300) "1733779200000"
                   "9f3c2a1b" Example.ledger)
                (transfer_locks Example.bob (Example.to_alice 200) "1733779200001"
                   "0d4e5f6a" Example.ledger)) = Some c ∧
       deadlocked c.
Proof.
  split; [reflexivity|].
  exists (Running ["w1"] ["w2"], Running ["w2"] ["w1"]).
  split; [reflexivity|]. by repeat split.
Qed.

(** ** Balances stay non-negative *)

Lemma nonneg_balances_elem (st : Store) (w : Wallet.t) :
  nonneg_balances st → w ∈ wallets st → (0 <= Wallet.balance w)%Q.
Proof. intros N I. unfold nonneg_balances in N. rewrite Forall_forall in N. auto. Qed.

Lemma transfer_nonneg (user : User.t) (dto : TransferDto.t)
    (timestamp random : string) (st : Store) :
  nonneg_balances st → nonneg_balances (snd (transfer user dto timestamp random st)).
Proof.
  intros N. rewrite transfer_cases.
  destruct (Qlt_bool (TransferDto.amount dto) 100) eqn:Min; [done|].
  destruct (findOne (by_user user) (wallets st)) as [sender|] eqn:Fs; [|done].
  destruct (findOne (by_number dto) (wallets st)) as [recipient|] eqn:Fr; [|done].
  destruct (bool_decide (Wallet.id sender = Wallet.id recipient)); [done|].
  destruct (Qlt_bool (Wallet.balance sender) (TransferDto.amount dto)) eqn:B; [done|].
  apply Qlt_bool_false in Min, B.
  apply findOne_Some in Fr as [Ir _].
  pose proof (nonneg_balances_elem st recipient N Ir) as R.
  unfold nonneg_balances, transferred, insert_transaction, save_wallet.
  cbn [snd wallets].
  apply Forall_save; [cbn; lra|]. apply Forall_save; [cbn; lra|]. exact N.
Qed.

Lemma handleSuccessfulCharge_nonneg (payload : Payload.t) (now : string) (st : Store) :
  (0 <= Payload.amount (Payload.data payload))%Q →
  nonneg_balances st → nonneg_balances (snd (handleSuccessfulCharge payload now st)).
Proof.
  intros A N. rewrite handleSuccessfulCharge_cases.
  destruct (find_transaction_with_wallet _ st) as [[e joined]|] eqn:F; [|done].
  destruct (bool_decide (Transaction.status e = SUCCESS)); [done|].
  destruct (parse_metadata (Transaction.metadata e)); [done|].
  destruct joined as [w|]; [|done].
  apply find_transaction_with_wallet_Some in F as [_ W]. symmetry in W.
  apply find_by_key_Some in W as [I _].
  pose proof (nonneg_balances_elem st w N I) as B.
  unfold nonneg_balances, save_wallet, save_transaction. cbn [snd wallets].
  apply Forall_save; [|exact N].
  unfold credited. cbn [Wallet.balance Wallet.with_balance].
  assert (0 <= Payload.amount (Payload.data payload) / 100)%Q; [|lra].
  apply Qle_shift_div_l; [reflexivity|]. by rewrite Qmult_0_l.
Qed.

Lemma handleFailedCharge_wallets (payload : Payload.t) (now : string) (st : Store) :
  wallets (snd (handleFailedCharge payload now st)) = wallets st.
Proof.
  rewrite handleFailedCharge_cases.
  destruct (find_transaction _ st) as [e|]; [|done].
  destruct (bool_decide (Transaction.status e = FAILED)); [done|].
  by destruct (parse_metadata (Transaction.metadata e)).
Qed.

Lemma initiateDeposit_wallets (svc : Paystack.service) (user : User.t)
    (dto : DepositDto.t) (reference : string) (st : Store) :
  wallets (snd (initiateDeposit svc user dto reference st)) = wallets st.
Proof.
  unfold initiateDeposit.
  destruct (findOne _ (wallets st)); [|done].
  destruct (Qlt_bool (DepositDto.amount dto) 100); [done|].
  by destruct (Paystack.initializeTransaction _ _ _ _).
Qed.

Lemma commit_nonneg (op : Op) (st : Store) :
  nonneg_credit op → nonneg_balances st → nonneg_balances (commit op st).
Proof.
  intros C N. destruct op as [user|svc user dto reference|user dto timestamp random
                             |payload now]; cbn [commit].
  - exact N.
  - unfold nonneg_balances. by rewrite initiateDeposit_wallets.
  - by apply transfer_nonneg.
  - unfold handlePaystackWebhook. cbn in C.
    destruct (bool_decide (Payload.event payload = "charge.success")) eqn:E.
    + apply bool_decide_eq_true in E. by apply handleSuccessfulCharge_nonneg; auto.
    + destruct (bool_decide (Payload.event payload = "charge.failed")); [|done].
      unfold nonneg_balances. by rewrite handleFailedCharge_wallets.
Qed.

Lemma committed_states_nonneg (ops : list Op) (st : Store) :
  Forall nonneg_credit ops → nonneg_balances st →
  Forall nonneg_balances (committed_states ops st).
Proof.
  intros C. revert st. induction C as [|op ops Cop _ IH]; intros st N; cbn.
  - by constructor.
  - constructor; [done|]. apply IH. by apply commit_nonneg.
Qed.

(** C3 (as the code has it).  Start from wallets with non-negative
    balances and run any sequence of balance readings, deposit
    initiations, transfers and gateway notifications in which every
    charge-succeeded notification reports a non-negative amount: every
    committed store has non-negative balances only, so every balance
    [getBalance] returns is non-negative.  And a transfer that passes
    the earlier checks is refused with "Insufficient balance" whenever the
    sender's balance is below the amount. *)
Theorem balances_never_negative (ops : list Op) (st : Store) :
  nonneg_balances st →
  Forall nonneg_credit ops →
  Forall nonneg_balances (committed_states ops st) ∧
  (∀ st' user b,
     st' ∈ committed_states ops st →
     getBalance user st' = inr b → (0 <= Balance.balance b)%Q) ∧
  (∀ st' user dto timestamp random sender recipient,
     (100 <= TransferDto.amount dto)%Q →
     findOne (by_user user) (wallets st') = Some sender →
     findOne (by_number dto) (wallets st') = Some recipient →
     Wallet.id sender ≠ Wallet.id recipient →
     (Wallet.balance sender < TransferDto.amount dto)%Q →
     transfer user dto timestamp random st'
     = (inl (BadRequestException "Insufficient balance"), st')).
Proof.
  intros N C. pose proof (committed_states_nonneg ops st C N) as A.
  split; [exact A|]. split.
  - intros st' user b I. rewrite Forall_forall in A. specialize (A st' I).
    unfold getBalance.
    destruct (findOne _ (wallets st')) as [w|] eqn:F; [|done].
    intros [= <-]. cbn. apply findOne_Some in F as [Iw _].
    by apply (nonneg_balances_elem st').
  - intros st' user dto timestamp random sender recipient L Fs Fr Ne B.
    rewrite transfer_cases. apply Qlt_bool_false in L. apply Qlt_bool_true in B.
    rewrite L, Fs, Fr, B. by rewrite bool_decide_eq_false_2.
Qed.

Lemma balances_never_negative_witness :
  Forall nonneg_balances
    (committed_states
       [InitiateDeposit Example.gateway Example.alice {| DepositDto.amount := 5000 |}
          "TXN_1";
        Webhook Example.charge_success "2024-12-09T12:00:00.000Z";
        Transfer Example.alice (Example.to_bob 300) "1733779200000" "9f3c2a1b";
        GetBalance Example.bob]
       Example.ledger).
Proof.
  apply balances_never_negative.
  - repeat constructor; discriminate.
  - repeat constructor. intros _. discriminate.
Defined.

(** C3 (as the specification states it) fails: the pending deposit
    [TXN_1] of a wallet that holds 1000 is notified as succeeded with an
    amount of -200000; the wallet is left with 1000 - 2000. *)
Lemma negative_charge_overdraws :
  ¬ (∀ ops st, nonneg_balances st → Forall nonneg_balances (committed_states ops st)).
Proof.
  intros H.
  specialize (H [Webhook Example.negative_charge "2024-12-09T12:00:00.000Z"]
                Example.pending_deposit).
  assert (N : nonneg_balances Example.pending_deposit).
  { repeat constructor; discriminate. }
  specialize (H N). cbn [committed_states] in H.
  apply Forall_cons in H as [_ H]. apply Forall_cons in H as [H _].
  apply Forall_cons in H as [H _]. revert H. by vm_compute.
Qed.

(** * Further properties of the code *)

(** ** More on tables *)

Section TableFacts2.
Context {K A : Type} `{EqDecision K} (key : A → K).

(** [save] of an entity whose key is in the table rewrites rows in place. *)
Lemma save_fmap (x r : A) (rows : list A) :
  r ∈ rows → key r = key x →
  save key x rows = (λ row, if has_key key (key x) row then x else row) <$> rows.
Proof.
  intros I E. unfold save. by rewrite (existsb_has_key key x rows r I E).
Qed.

Lemma save_keys (x r : A) (rows : list A) :
  r ∈ rows → key r = key x → key <$> save key x rows = key <$> rows.
Proof.
  intros I E. rewrite (save_fmap x r rows I E). clear I.
  induction rows as [|a rows IH]; [done|]. cbn. f_equal; [|exact IH].
  destruct (has_key key (key x) a) eqn:Ha; [|done].
  apply (has_key_true key) in Ha. by rewrite Ha.
Qed.

Lemma save_length (x r : A) (rows : list A) :
  r ∈ rows → key r = key x → length (save key x rows) = length rows.
Proof. intros I E. rewrite (save_fmap x r rows I E). apply length_fmap. Qed.

Lemma findOne_app_l (p : A → bool) (rows more : list A) (r : A) :
  findOne p rows = Some r → findOne p (rows ++ more)%list = Some r.
Proof.
  unfold findOne. induction rows as [|a rows IH]; [done|]. cbn.
  destruct (p a); [done|exact IH].
Qed.

Lemma findOne_app_r (p : A → bool) (rows more : list A) :
  findOne p rows = None → findOne p (rows ++ more)%list = findOne p more.
Proof.
  unfold findOne. induction rows as [|a rows IH]; [done|]. cbn.
  destruct (p a); [done|exact IH].
Qed.

(** A rewriting of rows that does not change what the [where] clause
    says of them commutes with [findOne]. *)
Lemma findOne_fmap_ext (p : A → bool) (g : A → A) (rows : list A) :
  (∀ row, row ∈ rows → p (g row) = p row) →
  findOne p (g <$> rows) = g <$> findOne p rows.
Proof.
  unfold findOne. induction rows as [|a rows IH]; intros Hp; [done|]. cbn.
  rewrite (Hp a) by apply list_elem_of_here.
  destruct (p a); [done|]. apply IH. intros row I. apply Hp. by apply list_elem_of_further.
Qed.

Lemma unique_key_row (rows : list A) (r row : A) :
  NoDup (key <$> rows) → r ∈ rows → row ∈ rows → key row = key r → row = r.
Proof.
  induction rows as [|a rows IH]; intros D Ir Irow E; [by apply elem_of_nil in Ir|].
  cbn in D. apply NoDup_cons in D as [Na D].
  apply elem_of_cons in Ir as [->|Ir]; apply elem_of_cons in Irow as [->|Irow].
  - done.
  - exfalso. apply Na. rewrite <- E. by apply list_elem_of_fmap_2.
  - exfalso. apply Na. rewrite E. by apply list_elem_of_fmap_2.
  - by apply IH.
Qed.

End TableFacts2.

(** ** Deposit initiation *)

(** X1.  [initiateDeposit] looks for the caller's wallet before it looks
    at the amount: without a wallet it throws [NotFoundException]
    whatever the amount, with a wallet and an amount below 100 it throws
    [BadRequestException]; in both cases the store is unchanged, whatever
    the gateway would have answered. *)
Theorem initiateDeposit_refusals (svc : Paystack.service) (user : User.t)
    (dto : DepositDto.t) (reference : string) (st : Store) :
  (findOne (by_user user) (wallets st) = None →
   initiateDeposit svc user dto reference st
   = (inl (NotFoundException "Wallet not found"), st)) ∧
  (∀ wallet,
     findOne (by_user user) (wallets st) = Some wallet →
     (DepositDto.amount dto < 100)%Q →
     initiateDeposit svc user dto reference st
     = (inl (BadRequestException "Minimum deposit amount is ₦100"), st)).
Proof.
  unfold initiateDeposit. fold (by_user user). split.
  - by intros ->.
  - intros wallet -> L. apply Qlt_bool_true in L. by rewrite L.
Qed.

Lemma initiateDeposit_refusals_witness :
  initiateDeposit Example.gateway Example.carol {| DepositDto.amount := 50 |} "TXN_2"
    Example.ledger = (inl (NotFoundException "Wallet not found"), Example.ledger) ∧
  initiateDeposit Example.gateway Example.alice {| DepositDto.amount := 50 |} "TXN_2"
    Example.ledger
  = (inl (BadRequestException "Minimum deposit amount is ₦100"), Example.ledger).
Proof.
  split.
  - apply (initiateDeposit_refusals Example.gateway Example.carol). reflexivity.
  - apply (proj2 (initiateDeposit_refusals Example.gateway Example.alice
                    {| DepositDto.amount := 50 |} "TXN_2" Example.ledger) Example.w1);
      reflexivity.
Defined.

Lemma initiateDeposit_store (svc : Paystack.service) (user : User.t)
    (dto : DepositDto.t) (reference : string) (st : Store) (wallet : Wallet.t) :
  findOne (by_user user) (wallets st) = Some wallet →
  (100 <= DepositDto.amount dto)%Q →
  snd (initiateDeposit svc user dto reference st)
  = insert_transaction (depositTransaction wallet dto reference) st.
Proof.
  intros F L. unfold initiateDeposit. fold (by_user user). rewrite F.
  apply Qlt_bool_false in L. rewrite L.
  by destruct (Paystack.initializeTransaction _ _ _ _).
Qed.

Lemma find_transaction_inserted (reference : string) (st : Store)
    (draft : nat → Transaction.t) :
  find_transaction reference st = None →
  Transaction.reference (draft (next_transaction_id st)) = Some reference →
  find_transaction reference (insert_transaction draft st)
  = Some (draft (next_transaction_id st)).
Proof.
  intros F R. unfold find_transaction, insert_transaction in *. cbn [transactions].
  rewrite findOne_app_r by done. unfold findOne. cbn.
  by rewrite bool_decide_eq_true_2.
Qed.

(** X2.  Once the wallet is found and the amount is at least 100, the
    pending deposit entry is stored before the gateway is called and
    stays stored when the call throws: the store after the operation does
    not depend on the gateway, its wallet table is the old one, the
    gateway's exception is what the operation throws, and when no entry
    carried the reference before, the reference now finds the new pending
    entry of the initiated amount. *)
Theorem initiateDeposit_persists_pending (svc : Paystack.service) (user : User.t)
    (dto : DepositDto.t) (reference : string) (st : Store) (wallet : Wallet.t) :
  findOne (by_user user) (wallets st) = Some wallet →
  (100 <= DepositDto.amount dto)%Q →
  (∀ svc', snd (initiateDeposit svc' user dto reference st)
           = snd (initiateDeposit svc user dto reference st)) ∧
  wallets (snd (initiateDeposit svc user dto reference st)) = wallets st ∧
  (∀ x, Paystack.initializeTransaction svc (User.email user) (DepositDto.amount dto)
          reference = inl x →
        fst (initiateDeposit svc user dto reference st) = inl x) ∧
  (find_transaction reference st = None →
   ∃ e, find_transaction reference (snd (initiateDeposit svc user dto reference st))
        = Some e ∧
        Transaction.status e = PENDING ∧ Transaction.type e = DEPOSIT ∧
        Transaction.amount e = DepositDto.amount dto ∧
        Transaction.walletId e = Wallet.id wallet).
Proof.
  intros F L. split; [|split; [|split]].
  - intros svc'. by rewrite !(initiateDeposit_store _ user dto reference st wallet).
  - by rewrite (initiateDeposit_store _ user dto reference st wallet).
  - intros x E. unfold initiateDeposit. fold (by_user user). rewrite F.
    apply Qlt_bool_false in L. by rewrite L, E.
  - intros N. rewrite (initiateDeposit_store _ user dto reference st wallet) by done.
    eexists. split; [by apply find_transaction_inserted|]. done.
Qed.

Lemma initiateDeposit_persists_pending_witness :
  ∃ e, find_transaction "TXN_1" Example.pending_deposit = Some e ∧
       Transaction.status e = PENDING ∧ Transaction.amount e = 5000%Q.
Proof.
  destruct (initiateDeposit_persists_pending Example.gateway Example.alice
              {| DepositDto.amount := 5000 |} "TXN_1" Example.ledger Example.w1)
    as (_ & _ & _ & H); [reflexivity|discriminate|].
  destruct (H eq_refl) as (e & F & S & _ & A & _).
  exists e. by repeat split.
Defined.

(** X3.  A deposit and its confirmation compose: the deposit is
    initiated for [amount] under a fresh reference, for a wallet that is
    also the row its id finds; the request posted to the gateway carries
    [amount * 100]; when the gateway notifies that number as succeeded,
    the notification finds the pending entry, the entry goes to status
    success and the wallet holds its former balance plus
    [amount * 100 / 100], evaluated in that order. *)
Theorem deposit_then_charge_success (svc : Paystack.service) (user : User.t)
    (dto : DepositDto.t) (reference now : string) (response : option string)
    (st : Store) (wallet : Wallet.t) :
  findOne (by_user user) (wallets st) = Some wallet →
  find_wallet (Wallet.id wallet) st = Some wallet →
  (100 <= DepositDto.amount dto)%Q →
  find_transaction reference st = None →
  Paystack.initializeTransaction svc (User.email user) (DepositDto.amount dto) reference
  = Paystack.axios_post svc
      {| Paystack.email := User.email user;
         Paystack.amount := (DepositDto.amount dto * 100)%Q;
         Paystack.reference := reference;
         Paystack.callback_url := Paystack.backendUrl svc +:+ "/wallet/paystack/callback" |} ∧
  ∃ st' wallet',
    handlePaystackWebhook
      {| Payload.event := "charge.success";
         Payload.data := {| Payload.reference := reference;
                            Payload.amount := (DepositDto.amount dto * 100)%Q;
                            Payload.gateway_response := response |} |}
      now (snd (initiateDeposit svc user dto reference st)) = (inr tt, st') ∧
    find_wallet (Wallet.id wallet) st' = Some wallet' ∧
    Wallet.balance wallet'
    = (Wallet.balance wallet + DepositDto.amount dto * 100 / 100)%Q ∧
    Transaction.status <$> find_transaction reference st' = Some SUCCESS.
Proof.
  intros F W L N. split; [done|].
  rewrite (initiateDeposit_store svc user dto reference st wallet F L).
  set (st1 := insert_transaction (depositTransaction wallet dto reference) st).
  set (payload := Payload.mk _ _).
  set (e := depositTransaction wallet dto reference (next_transaction_id st)).
  assert (F1 : find_transaction (Payload.reference (Payload.data payload)) st1 = Some e).
  { by apply find_transaction_inserted. }
  assert (W1 : find_wallet (Transaction.walletId e) st1 = Some wallet) by exact W.
  destruct (find_after_charge_success payload now st1 e ∅ wallet F1 W1) as [F2 W2].
  eexists _, (credited payload wallet).
  split; [|split; [exact W2|split]].
  - unfold handlePaystackWebhook. cbn [Payload.event payload].
    rewrite bool_decide_eq_true_2 by done.
    by apply (handleSuccessfulCharge_applies payload now st1 e ∅ wallet).
  - done.
  - change reference with (Payload.reference (Payload.data payload)). by rewrite F2.
Qed.

Lemma deposit_then_charge_success_witness :
  ∃ st' wallet',
    handlePaystackWebhook (Example.charge "charge.success" (5000 * 100) None)
      "2024-12-09T12:00:00.000Z" Example.pending_deposit = (inr tt, st') ∧
    find_wallet "w1" st' = Some wallet' ∧
    Wallet.balance wallet' = (1000 + 5000 * 100 / 100)%Q.
Proof.
  destruct (deposit_then_charge_success Example.gateway Example.alice
              {| DepositDto.amount := 5000 |} "TXN_1" "2024-12-09T12:00:00.000Z" None
              Example.ledger Example.w1)
    as (_ & st' & wallet' & H & W & B & _);
    [reflexivity|reflexivity|discriminate|reflexivity|].
  exists st', wallet'. by repeat split.
Defined.

(** ** Transfers and the rest of the ledger *)

Section TableFacts3.
Context {K A : Type} `{EqDecision K} (key : A → K).

Lemma elem_of_save_other (x r row : A) (rows : list A) :
  r ∈ rows → key r = key x → row ∈ rows → key row ≠ key x → row ∈ save key x rows.
Proof.
  intros I E Irow N. rewrite (save_fmap key x r rows I E).
  apply (list_elem_of_fmap_2' _ _ row); [done|].
  destruct (has_key key (key x) row) eqn:Hk; [|done].
  by apply (has_key_true key) in Hk.
Qed.

Lemma elem_of_save_self (x r : A) (rows : list A) :
  r ∈ rows → key r = key x → x ∈ save key x rows.
Proof.
  intros I E. rewrite (save_fmap key x r rows I E).
  apply (list_elem_of_fmap_2' _ _ r); [done|].
  by rewrite (proj2 (has_key_true key _ _) E).
Qed.

(** With unique keys, [save] commutes with a [findOne] whose [where]
    clause does not tell the saved entity from the row it replaces. *)
Lemma findOne_save_unique (p : A → bool) (x r : A) (rows : list A) :
  NoDup (key <$> rows) → r ∈ rows → key r = key x → p x = p r →
  findOne p (save key x rows)
  = (λ row, if has_key key (key x) row then x else row) <$> findOne p rows.
Proof.
  intros D I E P. rewrite (save_fmap key x r rows I E).
  apply findOne_fmap_ext. intros row Irow.
  destruct (has_key key (key x) row) eqn:Hk; [|done].
  apply (has_key_true key) in Hk.
  rewrite (unique_key_row key rows r row D I Irow) by congruence. done.
Qed.

End TableFacts3.

Lemma transfer_success (user : User.t) (dto : TransferDto.t)
    (timestamp random : string) (st st' : Store) (res : TransferResult.t) :
  transfer user dto timestamp random st = (inr res, st') →
  ∃ sender recipient,
    findOne (by_user user) (wallets st) = Some sender ∧
    findOne (by_number dto) (wallets st) = Some recipient ∧
    Wallet.id sender ≠ Wallet.id recipient ∧
    (100 <= TransferDto.amount dto)%Q ∧
    (TransferDto.amount dto <= Wallet.balance sender)%Q ∧
    st' = transferred user dto sender recipient st.
Proof.
  rewrite transfer_cases.
  destruct (Qlt_bool (TransferDto.amount dto) 100) eqn:L; [done|].
  destruct (findOne (by_user user) (wallets st)) as [sender|]; [|done].
  destruct (findOne (by_number dto) (wallets st)) as [recipient|]; [|done].
  destruct (bool_decide (Wallet.id sender = Wallet.id recipient)) eqn:Same; [done|].
  destruct (Qlt_bool (Wallet.balance sender) (TransferDto.amount dto)) eqn:B; [done|].
  intros [= <- <-]. exists sender, recipient.
  apply bool_decide_eq_false in Same. apply Qlt_bool_false in L, B. done.
Qed.

(** X4.  A successful transfer touches the two wallets and nothing
    else: every wallet with another id reads back as before, the list
    of wallet ids is the same, the entries that existed are still there
    in the same order, followed by exactly two new entries of the
    transferred amount, and the id counter has advanced by two. *)
Theorem transfer_frame (user : User.t) (dto : TransferDto.t)
    (timestamp random : string) (st st' : Store) (res : TransferResult.t) :
  transfer user dto timestamp random st = (inr res, st') →
  ∃ sender recipient out inc,
    findOne (by_user user) (wallets st) = Some sender ∧
    findOne (by_number dto) (wallets st) = Some recipient ∧
    (∀ k, k ≠ Wallet.id sender → k ≠ Wallet.id recipient →
          find_wallet k st' = find_wallet k st) ∧
    Wallet.id <$> wallets st' = Wallet.id <$> wallets st ∧
    transactions st' = (transactions st ++ [out; inc])%list ∧
    Transaction.amount out = TransferDto.amount dto ∧
    Transaction.amount inc = TransferDto.amount dto ∧
    Transaction.walletId out = Wallet.id sender ∧
    Transaction.walletId inc = Wallet.id recipient ∧
    next_transaction_id st' = S (S (next_transaction_id st)).
Proof.
  intros T. destruct (transfer_success _ _ _ _ _ _ _ T)
    as (sender & recipient & Fs & Fr & N & _ & _ & ->).
  destruct (findOne_Some _ _ _ Fs) as [Is _]. destruct (findOne_Some _ _ _ Fr) as [Ir _].
  eexists sender, recipient, _, _.
  split; [exact Fs|]. split; [exact Fr|]. split; [|split; [|split]].
  - intros k Ks Kr. unfold find_wallet, transferred, insert_transaction, save_wallet.
    cbn [wallets]. by rewrite !find_by_key_save_ne.
  - unfold transferred, insert_transaction, save_wallet. cbn [wallets].
    rewrite (save_keys Wallet.id (received dto recipient) recipient); [|
      by apply (elem_of_save_other Wallet.id _ sender)|done].
    by rewrite (save_keys Wallet.id (debited dto sender) sender).
  - cbn. by rewrite <- app_assoc.
  - done.
Qed.

Lemma transfer_frame_witness :
  Wallet.id <$> wallets Example2.after_transfer = ["w1"; "w2"] ∧
  length (transactions Example2.after_transfer) = 2.
Proof.
  destruct (transfer_frame Example.alice (Example.to_bob 300) "1733779200000"
              "9f3c2a1b" Example.ledger _ _ eq_refl)
    as (sender & recipient & out & inc & _ & _ & _ & I & E & _).
  split; [exact I|].
  change (transactions Example2.after_transfer = [out; inc]) in E. by rewrite E.
Defined.

Lemma unique_after_debit (dto : TransferDto.t) (sender : Wallet.t) (st : Store) :
  unique_wallet_ids st → sender ∈ wallets st →
  NoDup (Wallet.id <$> save Wallet.id (debited dto sender) (wallets st)).
Proof.
  intros D I. by rewrite (save_keys Wallet.id (debited dto sender) sender).
Qed.

(** What [findOne] on the wallet table returns after a transfer, in
    terms of what it returned before. *)
Lemma findOne_transferred (p : Wallet.t → bool) (user : User.t) (dto : TransferDto.t)
    (sender recipient : Wallet.t) (st : Store) :
  unique_wallet_ids st →
  sender ∈ wallets st → recipient ∈ wallets st →
  Wallet.id sender ≠ Wallet.id recipient →
  (∀ w b, p (Wallet.with_balance w b) = p w) →
  findOne p (wallets (transferred user dto sender recipient st))
  = (λ w, if bool_decide (Wallet.id w = Wallet.id sender) then debited dto sender
          else if bool_decide (Wallet.id w = Wallet.id recipient)
               then received dto recipient else w)
    <$> findOne p (wallets st).
Proof.
  intros D Is Ir N P. unfold transferred, insert_transaction, save_wallet.
  cbn [wallets].
  rewrite (findOne_save_unique Wallet.id p (received dto recipient) recipient);
    [|by apply unique_after_debit
     |by apply (elem_of_save_other Wallet.id _ sender)|done|apply P].
  rewrite (findOne_save_unique Wallet.id p (debited dto sender) sender);
    [|done|done|done|apply P].
  destruct (findOne p (wallets st)) as [w|]; [|done]. cbn. f_equal.
  unfold has_key. cbn [Wallet.id debited received Wallet.with_balance].
  destruct (bool_decide (Wallet.id w = Wallet.id sender)) eqn:E1.
  - cbn. by rewrite bool_decide_eq_false_2.
  - done.
Qed.

(** X5.  With unique wallet ids, what [getBalance] reports after a
    successful transfer: the sender sees the former balance minus the
    amount, the owner of the recipient wallet the former balance plus the
    amount, and a user whose wallet is neither sees what [getBalance]
    reported before. *)
Theorem getBalance_after_transfer (user : User.t) (dto : TransferDto.t)
    (timestamp random : string) (st st' : Store) (res : TransferResult.t) :
  unique_wallet_ids st →
  transfer user dto timestamp random st = (inr res, st') →
  ∃ sender recipient,
    findOne (by_user user) (wallets st) = Some sender ∧
    findOne (by_number dto) (wallets st) = Some recipient ∧
    getBalance user st'
    = inr {| Balance.balance := (Wallet.balance sender - TransferDto.amount dto)%Q;
             Balance.walletNumber := Wallet.walletNumber sender |} ∧
    (∀ owner, findOne (by_user owner) (wallets st) = Some recipient →
       getBalance owner st'
       = inr {| Balance.balance :=
                  (Wallet.balance recipient + TransferDto.amount dto)%Q;
                Balance.walletNumber := Wallet.walletNumber recipient |}) ∧
    (∀ other w, findOne (by_user other) (wallets st) = Some w →
       Wallet.id w ≠ Wallet.id sender → Wallet.id w ≠ Wallet.id recipient →
       getBalance other st' = getBalance other st).
Proof.
  intros D T. destruct (transfer_success _ _ _ _ _ _ _ T)
    as (sender & recipient & Fs & Fr & N & _ & _ & ->).
  destruct (findOne_Some _ _ _ Fs) as [Is _]. destruct (findOne_Some _ _ _ Fr) as [Ir _].
  exists sender, recipient. split; [exact Fs|]. split; [exact Fr|].
  assert (G : ∀ u, findOne (by_user u) (wallets (transferred user dto sender recipient st))
              = (λ w, if bool_decide (Wallet.id w = Wallet.id sender)
                      then debited dto sender
                      else if bool_decide (Wallet.id w = Wallet.id recipient)
                           then received dto recipient else w)
                <$> findOne (by_user u) (wallets st)).
  { intros u. by apply findOne_transferred. }
  unfold getBalance. split; [|split].
  - fold (by_user user). rewrite G, Fs. cbn. by rewrite bool_decide_eq_true_2.
  - intros owner Fo. fold (by_user owner). rewrite G, Fo. cbn.
    rewrite bool_decide_eq_false_2 by done. by rewrite bool_decide_eq_true_2.
  - intros other w Fo N1 N2. fold (by_user other). rewrite G, Fo. cbn.
    by rewrite !bool_decide_eq_false_2.
Qed.

Lemma getBalance_after_transfer_witness :
  getBalance Example.alice Example2.after_transfer
  = inr {| Balance.balance := (1000 - 300)%Q; Balance.walletNumber := "4000000001" |} ∧
  getBalance Example.bob Example2.after_transfer
  = inr {| Balance.balance := (500 + 300)%Q; Balance.walletNumber := "4000000002" |}.
Proof.
  destruct (getBalance_after_transfer Example.alice (Example.to_bob 300)
              "1733779200000" "9f3c2a1b" Example.ledger _ _
              ltac:(compute_done) eq_refl)
    as (sender & recipient & Fs & Fr & Hs & Hr & _).
  injection Fs as <-. injection Fr as <-.
  split; [exact Hs|]. by apply Hr.
Defined.

(** ** Refused transfers *)

Lemma transfer_rollback (user : User.t) (dto : TransferDto.t)
    (timestamp random : string) (st st' : Store) (x : Exception) :
  transfer user dto timestamp random st = (inl x, st') → st' = st.
Proof.
  rewrite transfer_cases.
  destruct (Qlt_bool (TransferDto.amount dto) 100); [by intros [= <- <-]|].
  destruct (findOne (by_user user) (wallets st)) as [sender|]; [|by intros [= <- <-]].
  destruct (findOne (by_number dto) (wallets st)) as [recipient|]; [|by intros [= <- <-]].
  destruct (bool_decide (Wallet.id sender = Wallet.id recipient)); [by intros [= <- <-]|].
  by destruct (Qlt_bool (Wallet.balance sender) (TransferDto.amount dto));
    intros [= <- <-].
Qed.

(** ** What a notification leaves alone *)

Lemma find_wallet_elem (k : string) (st : Store) (w : Wallet.t) :
  find_wallet k st = Some w → w ∈ wallets st ∧ Wallet.id w = k.
Proof. apply find_by_key_Some. Qed.

Lemma find_transaction_elem (r : string) (st : Store) (e : Transaction.t) :
  find_transaction r st = Some e → e ∈ transactions st.
Proof. intros F. by apply findOne_Some in F as [I _]. Qed.

Lemma handleSuccessfulCharge_ids (payload : Payload.t) (now : string) (st : Store) :
  Transaction.id <$> transactions (snd (handleSuccessfulCharge payload now st))
  = Transaction.id <$> transactions st ∧
  Wallet.id <$> wallets (snd (handleSuccessfulCharge payload now st))
  = Wallet.id <$> wallets st ∧
  next_transaction_id (snd (handleSuccessfulCharge payload now st))
  = next_transaction_id st.
Proof.
  rewrite handleSuccessfulCharge_cases.
  destruct (find_transaction_with_wallet _ st) as [[e joined]|] eqn:F; [|done].
  destruct (bool_decide (Transaction.status e = SUCCESS)); [done|].
  destruct (parse_metadata (Transaction.metadata e)) as [x|o]; [done|].
  destruct joined as [w|]; [|done].
  apply find_transaction_with_wallet_Some in F as [F W]. symmetry in W.
  apply find_transaction_elem in F. apply find_wallet_elem in W as [W _].
  unfold save_wallet, save_transaction. cbn [snd wallets transactions next_transaction_id].
  split; [|split; [|done]].
  - by apply (save_keys Transaction.id _ e).
  - by apply (save_keys Wallet.id _ w).
Qed.

Lemma handleFailedCharge_ids (payload : Payload.t) (now : string) (st : Store) :
  Transaction.id <$> transactions (snd (handleFailedCharge payload now st))
  = Transaction.id <$> transactions st ∧
  next_transaction_id (snd (handleFailedCharge payload now st))
  = next_transaction_id st.
Proof.
  rewrite handleFailedCharge_cases.
  destruct (find_transaction _ st) as [e|] eqn:F; [|done].
  destruct (bool_decide (Transaction.status e = FAILED)); [done|].
  destruct (parse_metadata (Transaction.metadata e)) as [x|o]; [done|].
  apply find_transaction_elem in F.
  unfold save_transaction. cbn [snd transactions next_transaction_id].
  split; [|done]. by apply (save_keys Transaction.id _ e).
Qed.

(** X7.  A gateway notification, of whatever kind, never adds or removes
    an entry or a wallet.  When no entry carries its reference the store
    is left as it is; otherwise every wallet other than the wallet of
    that entry, and every entry with another id, reads back as before. *)
Theorem webhook_frame (payload : Payload.t) (now : string) (st : Store) :
  let st' := snd (handlePaystackWebhook payload now st) in
  Transaction.id <$> transactions st' = Transaction.id <$> transactions st ∧
  Wallet.id <$> wallets st' = Wallet.id <$> wallets st ∧
  next_transaction_id st' = next_transaction_id st ∧
  (find_transaction (Payload.reference (Payload.data payload)) st = None → st' = st) ∧
  (∀ e, find_transaction (Payload.reference (Payload.data payload)) st = Some e →
     (∀ k, k ≠ Transaction.walletId e → find_wallet k st' = find_wallet k st) ∧
     (∀ i, i ≠ Transaction.id e →
           find_by_key Transaction.id i (transactions st')
           = find_by_key Transaction.id i (transactions st))).
Proof.
  unfold handlePaystackWebhook.
  destruct (bool_decide (Payload.event payload = "charge.success")).
  - destruct (handleSuccessfulCharge_ids payload now st) as (I1 & I2 & I3).
    cbn zeta. split; [done|]. split; [done|]. split; [done|].
    rewrite handleSuccessfulCharge_cases. unfold find_transaction_with_wallet.
    split.
    + by intros ->.
    + intros e ->. cbn [fmap option_fmap option_map].
      destruct (bool_decide (Transaction.status e = SUCCESS)); [done|].
      destruct (parse_metadata (Transaction.metadata e)) as [x|o]; [done|].
      destruct (find_wallet (Transaction.walletId e) st) as [w|] eqn:W; [|done].
      apply find_wallet_id in W. cbn [snd]. split.
      * intros k N. unfold find_wallet, save_wallet, save_transaction. cbn [wallets].
        apply find_by_key_save_ne. cbn. congruence.
      * intros i N. unfold save_wallet, save_transaction. cbn [transactions].
        by apply find_by_key_save_ne.
  - destruct (bool_decide (Payload.event payload = "charge.failed")); [|done].
    destruct (handleFailedCharge_ids payload now st) as (I1 & I3).
    cbn zeta. split; [done|]. split; [by rewrite handleFailedCharge_wallets|].
    split; [done|].
    rewrite handleFailedCharge_cases. split.
    + by intros ->.
    + intros e ->.
      destruct (bool_decide (Transaction.status e = FAILED)); [done|].
      destruct (parse_metadata (Transaction.metadata e)) as [x|o]; [done|].
      cbn [snd]. split; [done|].
      intros i N. unfold save_transaction. cbn [transactions].
      by apply find_by_key_save_ne.
Qed.

(** A notification for a reference that no entry carries. *)
Lemma webhook_frame_witness :
  snd (handlePaystackWebhook Example.charge_success "2024-12-09T12:00:00.000Z"
         Example.ledger) = Example.ledger.
Proof.
  apply (proj1 (proj2 (proj2 (proj2 (webhook_frame Example.charge_success
           "2024-12-09T12:00:00.000Z" Example.ledger))))).
  reflexivity.
Defined.

(** X8.  Only a charge-succeeded notification can change a balance: for
    any other event the wallet table after the call is the wallet table
    before it, and for an event that is neither charge-succeeded nor
    charge-failed the call returns normally and the whole store is
    unchanged. *)
Theorem other_events_move_no_money (payload : Payload.t) (now : string) (st : Store) :
  (Payload.event payload ≠ "charge.success" →
   wallets (snd (handlePaystackWebhook payload now st)) = wallets st) ∧
  (Payload.event payload ≠ "charge.success" →
   Payload.event payload ≠ "charge.failed" →
   handlePaystackWebhook payload now st = (inr tt, st)).
Proof.
  unfold handlePaystackWebhook. split.
  - intros N. rewrite bool_decide_eq_false_2 by done.
    destruct (bool_decide (Payload.event payload = "charge.failed")); [|done].
    apply handleFailedCharge_wallets.
  - intros N1 N2. by rewrite !bool_decide_eq_false_2.
Qed.

Lemma other_events_move_no_money_witness :
  wallets Example.failed_deposit = wallets Example.pending_deposit ∧
  handlePaystackWebhook (Example.charge "transfer.success" 500000 None)
    "2024-12-09T12:00:00.000Z" Example.pending_deposit
  = (inr tt, Example.pending_deposit).
Proof.
  split.
  - apply (proj1 (other_events_move_no_money Example.charge_failed
                    "2024-12-09T12:00:00.000Z" Example.pending_deposit)).
    discriminate.
  - apply (proj2 (other_events_move_no_money
                    (Example.charge "transfer.success" 500000 None)
                    "2024-12-09T12:00:00.000Z" Example.pending_deposit));
      discriminate.
Defined.

(** ** Notifications in sequence *)

(** X10.  The success check looks at the current status only, so a
    settled entry that a charge-failed notification has marked failed is
    settled again by the next charge-succeeded notification: after
    charge-succeeded, charge-failed, charge-succeeded for one reference
    the wallet holds its former balance plus twice the notified amount
    divided by 100, and the entry is in status success. *)
Theorem success_failed_success_credits_twice (succeeds fails : Payload.t)
    (now1 now2 now3 : string) (st : Store)
    (e : Transaction.t) (o : gmap string JsonValue) (w : Wallet.t) :
  Payload.reference (Payload.data fails) = Payload.reference (Payload.data succeeds) →
  find_transaction (Payload.reference (Payload.data succeeds)) st = Some e →
  Transaction.status e ≠ SUCCESS →
  parse_metadata (Transaction.metadata e) = inr o →
  find_wallet (Transaction.walletId e) st = Some w →
  ∃ st1 st2 st3,
    handleSuccessfulCharge succeeds now1 st = (inr tt, st1) ∧
    handleFailedCharge fails now2 st1 = (inr tt, st2) ∧
    handleSuccessfulCharge succeeds now3 st2 = (inr tt, st3) ∧
    Wallet.balance <$> find_wallet (Transaction.walletId e) st3
    = Some (Wallet.balance w + Payload.amount (Payload.data succeeds) / 100
            + Payload.amount (Payload.data succeeds) / 100)%Q ∧
    Transaction.status <$>
      find_transaction (Payload.reference (Payload.data succeeds)) st3 = Some SUCCESS.
Proof.
  intros R F S P W.
  set (o1 := success_metadata succeeds now1 o).
  set (e1 := succeeded succeeds now1 e o).
  set (st1 := save_wallet (credited succeeds w) (save_transaction e1 st)).
  destruct (find_after_charge_success succeeds now1 st e o w F W) as [F1 W1].
  fold e1 st1 in F1, W1.
  set (o2 := failure_metadata fails now2 o1).
  set (e2 := failed fails now2 e1 o1).
  set (st2 := save_transaction e2 st1).
  assert (F2 : find_transaction (Payload.reference (Payload.data succeeds)) st2 = Some e2).
  { by apply (find_transaction_saved _ st1 e1). }
  assert (W2 : find_wallet (Transaction.walletId e2) st2 = Some (credited succeeds w)).
  { exact W1. }
  destruct (find_after_charge_success succeeds now3 st2 e2 o2 (credited succeeds w) F2 W2)
    as [F3 W3].
  eexists st1, st2, _. split; [|split; [|split; [|split]]].
  - by apply handleSuccessfulCharge_applies.
  - apply (handleFailedCharge_applies fails now2 st1 e1 o1); [by rewrite R|done|done].
  - by apply (handleSuccessfulCharge_applies succeeds now3 st2 e2 o2 (credited succeeds w)).
  - change (Transaction.walletId e) with (Transaction.walletId e2). by rewrite W3.
  - by rewrite F3.
Qed.

Lemma success_failed_success_credits_twice_witness :
  ∃ st3,
    handleSuccessfulCharge Example.charge_success "2024-12-09T12:10:00.000Z"
      (snd (handleFailedCharge Example.charge_failed "2024-12-09T12:05:00.000Z"
              Example.settled_deposit)) = (inr tt, st3) ∧
    Wallet.balance <$> find_wallet "w1" st3
    = Some (1000 + 500000 / 100 + 500000 / 100)%Q.
Proof.
  destruct (success_failed_success_credits_twice Example.charge_success
              Example.charge_failed "2024-12-09T12:00:00.000Z"
              "2024-12-09T12:05:00.000Z" "2024-12-09T12:10:00.000Z"
              Example.pending_deposit
              (depositTransaction Example.w1 {| DepositDto.amount := 5000 |} "TXN_1" 0)
              ∅ Example.w1)
    as (st1 & st2 & st3 & H1 & H2 & H3 & B & _);
    [reflexivity|reflexivity|discriminate|reflexivity|reflexivity|].
  injection H1 as <-. change (handleFailedCharge Example.charge_failed
    "2024-12-09T12:05:00.000Z" Example.settled_deposit = (inr tt, st2)) in H2.
  exists st3. split; [by rewrite H2|exact B].
Defined.

(** ** Deposit status for the owner *)

(** X11.  For the owner of the wallet, [getDepositStatus] returns the
    entry's reference, status and amount, and never fails because of the
    stored metadata: metadata that parses is returned parsed, and
    metadata that is absent or is not JSON is left out. *)
Theorem getDepositStatus_owner (user : User.t) (reference : string) (st : Store)
    (e : Transaction.t) (w : Wallet.t) :
  find_transaction reference st = Some e →
  find_wallet (Transaction.walletId e) st = Some w →
  Wallet.userId w = User.id user →
  ∃ r,
    getDepositStatus user reference st = inr r ∧
    DepositStatus.reference r = Transaction.reference e ∧
    DepositStatus.status r = Transaction.status e ∧
    DepositStatus.amount r = Transaction.amount e ∧
    (∀ o, Transaction.metadata e = Some (JsonObject o) → DepositStatus.metadata r = Some o) ∧
    (∀ raw, Transaction.metadata e = Some (NotJson raw) → DepositStatus.metadata r = None) ∧
    (Transaction.metadata e = None → DepositStatus.metadata r = None).
Proof.
  intros F W U. unfold getDepositStatus, find_transaction_with_wallet.
  rewrite F. cbn [fmap option_fmap option_map]. rewrite W.
  rewrite bool_decide_eq_true_2 by done. cbn [negb].
  eexists. split; [done|]. cbn. repeat split.
  - by intros o ->.
  - intros raw ->. by destruct raw as [|c raw].
  - by intros ->.
Qed.

Lemma getDepositStatus_owner_witness :
  ∃ r, getDepositStatus Example.alice "TXN_7" Example2.broken_ledger = inr r ∧
       DepositStatus.status r = PENDING ∧ DepositStatus.amount r = 250%Q ∧
       DepositStatus.metadata r = None.
Proof.
  destruct (getDepositStatus_owner Example.alice "TXN_7" Example2.broken_ledger
              Example2.broken_entry Example.w1 eq_refl eq_refl eq_refl)
    as (r & H & _ & S & A & _ & M & _).
  exists r. split; [exact H|]. split; [exact S|]. split; [exact A|].
  by apply (M "{oops").
Defined.

(** X12.  After a charge-succeeded notification has settled an entry,
    the owner's [getDepositStatus] reports status success, the merged
    metadata, and the amount stored in the entry when the deposit was
    initiated, whatever amount the gateway notified. *)
Theorem getDepositStatus_after_settlement (user : User.t) (payload : Payload.t)
    (now : string) (st : Store)
    (e : Transaction.t) (o : gmap string JsonValue) (w : Wallet.t) :
  find_transaction (Payload.reference (Payload.data payload)) st = Some e →
  Transaction.status e ≠ SUCCESS →
  parse_metadata (Transaction.metadata e) = inr o →
  find_wallet (Transaction.walletId e) st = Some w →
  Wallet.userId w = User.id user →
  getDepositStatus user (Payload.reference (Payload.data payload))
    (snd (handleSuccessfulCharge payload now st))
  = inr {| DepositStatus.reference := Transaction.reference e;
           DepositStatus.status := SUCCESS;
           DepositStatus.amount := Transaction.amount e;
           DepositStatus.metadata := Some (success_metadata payload now o) |}.
Proof.
  intros F S P W U.
  rewrite (handleSuccessfulCharge_applies payload now st e o w F S P W). cbn [snd].
  destruct (find_after_charge_success payload now st e o w F W) as [F' W'].
  unfold getDepositStatus, find_transaction_with_wallet.
  rewrite F'. cbn [fmap option_fmap option_map].
  change (Transaction.walletId (succeeded payload now e o))
    with (Transaction.walletId e).
  rewrite W'. change (Wallet.userId (credited payload w)) with (Wallet.userId w).
  by rewrite bool_decide_eq_true_2.
Qed.

Lemma getDepositStatus_after_settlement_witness :
  ∃ r, getDepositStatus Example.alice "TXN_1" Example.settled_deposit = inr r ∧
       DepositStatus.status r = SUCCESS ∧ DepositStatus.amount r = 5000%Q.
Proof.
  eexists. split.
  - exact (getDepositStatus_after_settlement Example.alice Example.charge_success
             "2024-12-09T12:00:00.000Z" Example.pending_deposit
             (depositTransaction Example.w1 {| DepositDto.amount := 5000 |} "TXN_1" 0)
             ∅ Example.w1 eq_refl ltac:(discriminate) eq_refl eq_refl eq_refl).
  - by split.
Defined.

(** ** Transaction history *)

Section HistoryFacts.
Variable createdAt : Transaction.t → nat.

#[local] Instance newer_decision : RelDecision (newer createdAt).
Proof. intros x y. unfold newer. apply _. Defined.

#[local] Instance newer_total : Total (newer createdAt).
Proof. intros x y. unfold newer. lia. Qed.

#[local] Instance newer_transitive : Transitive (newer createdAt).
Proof. intros x y z. unfold newer. lia. Qed.

Lemma view_base (e : Transaction.t) :
  TransactionView.id (view createdAt e) = Transaction.id e ∧
  TransactionView.type (view createdAt e) = Transaction.type e ∧
  TransactionView.amount (view createdAt e) = Transaction.amount e ∧
  TransactionView.status (view createdAt e) = Transaction.status e ∧
  TransactionView.reference (view createdAt e) = Transaction.reference e ∧
  TransactionView.created_at (view createdAt e) = createdAt e.
Proof.
  unfold view. destruct (truthy (Transaction.metadata e)); [|done].
  destruct (Transaction.metadata e) as [t|]; [|done].
  by destruct (JSON_parse t).
Qed.

Lemma elem_of_find_history (walletId : string) (rows : list Transaction.t)
    (e : Transaction.t) :
  e ∈ find_history createdAt walletId rows →
  e ∈ rows ∧ Transaction.walletId e = walletId.
Proof.
  unfold find_history. intros I. apply elem_of_take in I as (i & I & _).
  apply list_elem_of_lookup_2 in I. rewrite merge_sort_Permutation in I.
  apply list_elem_of_filter in I. tauto.
Qed.

Lemma length_find_history (walletId : string) (rows : list Transaction.t) :
  length (find_history createdAt walletId rows)
  = min 50 (length (filter (λ e, Transaction.walletId e = walletId) rows)).
Proof.
  unfold find_history. rewrite length_take. f_equal.
  apply Permutation_length, merge_sort_Permutation.
Qed.

(** X13.  [getTransactions] throws [NotFoundException] when the caller
    has no wallet.  Otherwise it returns one element for each of the
    caller's entries up to 50, never more than 50; each element shows
    the id, kind, amount, status and reference of a stored entry of the
    caller's wallet, and of no other wallet; entries whose metadata is
    not JSON are returned all the same. *)
Theorem getTransactions_own_entries (user : User.t) (st : Store) :
  (findOne (by_user user) (wallets st) = None →
   getTransactions createdAt user st = inl (NotFoundException "Wallet not found")) ∧
  (∀ wallet,
     findOne (by_user user) (wallets st) = Some wallet →
     ∃ views,
       getTransactions createdAt user st = inr views ∧
       length views
       = min 50 (length (filter (λ e, Transaction.walletId e = Wallet.id wallet)
                           (transactions st))) ∧
       (length views ≤ 50)%nat ∧
       ∀ v, v ∈ views →
         ∃ e, e ∈ transactions st ∧
              Transaction.walletId e = Wallet.id wallet ∧
              TransactionView.id v = Transaction.id e ∧
              TransactionView.type v = Transaction.type e ∧
              TransactionView.amount v = Transaction.amount e ∧
              TransactionView.status v = Transaction.status e ∧
              TransactionView.reference v = Transaction.reference e).
Proof.
  unfold getTransactions. fold (by_user user). split; [by intros ->|].
  intros wallet ->. eexists. split; [done|].
  rewrite length_fmap, length_find_history. split; [done|]. split; [lia|].
  intros v I. apply list_elem_of_fmap in I as (e & -> & I).
  apply elem_of_find_history in I as [I W].
  exists e. destruct (view_base e) as (V1 & V2 & V3 & V4 & V5 & _). done.
Qed.

(** X14.  The elements [getTransactions] returns are ordered by
    creation time, newest first. *)
Theorem getTransactions_newest_first (user : User.t) (st : Store)
    (views : list TransactionView.t) :
  getTransactions createdAt user st = inr views →
  StronglySorted
    (λ v1 v2, (TransactionView.created_at v2 ≤ TransactionView.created_at v1)%nat) views.
Proof.
  unfold getTransactions.
  destruct (findOne _ (wallets st)) as [wallet|]; [|done]. intros [= <-].
  apply (StronglySorted_fmap _ (newer createdAt)).
  - intros x y. unfold newer.
    destruct (view_base x) as (_ & _ & _ & _ & _ & ->).
    by destruct (view_base y) as (_ & _ & _ & _ & _ & ->).
  - unfold find_history.
    set (l := merge_sort (newer createdAt) _).
    assert (S : StronglySorted (newer createdAt) l)
      by apply (StronglySorted_merge_sort _).
    rewrite <- (take_drop 50 l) in S. by apply StronglySorted_app_1_l in S.
Qed.

(** X15.  When the caller's wallet has at most 50 entries, every one of
    them is returned. *)
Theorem getTransactions_complete (user : User.t) (st : Store) (wallet : Wallet.t)
    (e : Transaction.t) :
  findOne (by_user user) (wallets st) = Some wallet →
  (length (filter (λ e, Transaction.walletId e = Wallet.id wallet) (transactions st))
   ≤ 50)%nat →
  e ∈ transactions st →
  Transaction.walletId e = Wallet.id wallet →
  ∃ views, getTransactions createdAt user st = inr views ∧ view createdAt e ∈ views.
Proof.
  intros F L I W. unfold getTransactions. fold (by_user user). rewrite F.
  eexists. split; [done|]. apply list_elem_of_fmap_2. unfold find_history.
  rewrite take_ge.
  - rewrite merge_sort_Permutation. by apply list_elem_of_filter.
  - by rewrite (Permutation_length (merge_sort_Permutation _ _)).
Qed.

End HistoryFacts.

Lemma getTransactions_own_entries_witness :
  ∃ views,
    getTransactions Transaction.id Example.alice Example2.after_two_transfers = inr views ∧
    length views = 2.
Proof.
  destruct (proj2 (getTransactions_own_entries Transaction.id Example.alice
                     Example2.after_two_transfers)
              (Wallet.with_balance Example.w1 (1000 - 300 + 200)%Q) eq_refl)
    as (views & H & L & _).
  exists views. split; [exact H|exact L].
Defined.

Lemma getTransactions_newest_first_witness :
  StronglySorted
    (λ v1 v2, (TransactionView.created_at v2 ≤ TransactionView.created_at v1)%nat)
    (view Transaction.id <$>
       find_history Transaction.id "w1" (transactions Example2.after_two_transfers)).
Proof.
  apply (getTransactions_newest_first Transaction.id Example.alice
           Example2.after_two_transfers).
  reflexivity.
Defined.

Lemma getTransactions_complete_witness :
  ∃ views,
    getTransactions Transaction.id Example.alice Example2.broken_ledger = inr views ∧
    view Transaction.id Example2.broken_entry ∈ views.
Proof.
  apply (getTransactions_complete Transaction.id Example.alice Example2.broken_ledger
           Example.w1 Example2.broken_entry).
  - reflexivity.
  - vm_compute. lia.
  - apply list_elem_of_here.
  - reflexivity.
Defined.

(** ** The webhook endpoint *)

Section EndpointFacts.
Variable hmac_sha512_hex : string → string → string.
Variable stringify : Payload.t → string.

(** X16.  The endpoint lets a notification reach the ledger only when
    the signature header is the keyed hash of the body: with any other
    header, or none, it throws [BadRequestException] and the store is
    unchanged.  With the right (non-empty) header it leaves the store
    [handlePaystackWebhook] leaves, acknowledges with [status: true] when
    the handler returns, and throws what the handler throws. *)
Theorem paystackWebhook_signature_gate (paystackSecretKey : string) (body : Payload.t)
    (signature : option string) (now : string) (st : Store) :
  (signature ≠ Some (hmac_sha512_hex paystackSecretKey (stringify body)) →
   ∃ message,
     paystackWebhook hmac_sha512_hex stringify paystackSecretKey body signature now st
     = (inl (BadRequestException message), st)) ∧
  (signature = Some (hmac_sha512_hex paystackSecretKey (stringify body)) →
   hmac_sha512_hex paystackSecretKey (stringify body) ≠ "" →
   paystackWebhook hmac_sha512_hex stringify paystackSecretKey body signature now st
   = match handlePaystackWebhook body now st with
     | (inl e, st') => (inl e, st')
     | (inr _, st') => (inr {| WebhookAck.status := true |}, st')
     end).
Proof.
  unfold paystackWebhook, verifyWebhookSignature. split.
  - intros N. destruct signature as [[|c sig]|]; [by eexists| |by eexists].
    rewrite bool_decide_eq_false_2 by congruence. by eexists.
  - intros -> N.
    destruct (hmac_sha512_hex paystackSecretKey (stringify body)) as [|c sig];
      [done|].
    by rewrite bool_decide_eq_true_2.
Qed.

End EndpointFacts.

Lemma paystackWebhook_signature_gate_witness :
  (∃ message,
     paystackWebhook Example2.toy_hmac Example2.toy_stringify "sk_test"
       Example.charge_success (Some "forged") "2024-12-09T12:00:00.000Z"
       Example.pending_deposit
     = (inl (BadRequestException message), Example.pending_deposit)) ∧
  snd (paystackWebhook Example2.toy_hmac Example2.toy_stringify "sk_test"
         Example.charge_success (Some "sk_test:charge.success/TXN_1")
         "2024-12-09T12:00:00.000Z" Example.pending_deposit)
  = Example.settled_deposit.
Proof.
  split.
  - apply (proj1 (paystackWebhook_signature_gate Example2.toy_hmac
                    Example2.toy_stringify "sk_test" Example.charge_success
                    (Some "forged") "2024-12-09T12:00:00.000Z" Example.pending_deposit)).
    discriminate.
  - rewrite (proj2 (paystackWebhook_signature_gate Example2.toy_hmac
                      Example2.toy_stringify "sk_test" Example.charge_success
                      (Some "sk_test:charge.success/TXN_1") "2024-12-09T12:00:00.000Z"
                      Example.pending_deposit) eq_refl ltac:(discriminate)).
    reflexivity.
Defined.

(** ** What no sequence of operations does *)

Lemma transfer_wallet_ids (user : User.t) (dto : TransferDto.t)
    (timestamp random : string) (st : Store) :
  Wallet.id <$> wallets (snd (transfer user dto timestamp random st))
  = Wallet.id <$> wallets st.
Proof.
  destruct (transfer user dto timestamp random st) as [[x|res] st'] eqn:T.
  - by apply transfer_rollback in T as ->.
  - destruct (transfer_success _ _ _ _ _ _ _ T)
      as (sender & recipient & Fs & Fr & N & _ & _ & ->).
    destruct (findOne_Some _ _ _ Fs) as [Is _].
    destruct (findOne_Some _ _ _ Fr) as [Ir _].
    unfold transferred, insert_transaction, save_wallet. cbn [snd wallets].
    rewrite (save_keys Wallet.id (received dto recipient) recipient); [|
      by apply (elem_of_save_other Wallet.id _ sender)|done].
    by rewrite (save_keys Wallet.id (debited dto sender) sender).
Qed.

Lemma commit_wallet_ids (op : Op) (st : Store) :
  Wallet.id <$> wallets (commit op st) = Wallet.id <$> wallets st.
Proof.
  destruct op as [user|svc user dto reference|user dto timestamp random|payload now];
    cbn [commit].
  - done.
  - by rewrite initiateDeposit_wallets.
  - apply transfer_wallet_ids.
  - unfold handlePaystackWebhook.
    destruct (bool_decide (Payload.event payload = "charge.success")).
    + apply handleSuccessfulCharge_ids.
    + destruct (bool_decide (Payload.event payload = "charge.failed")); [|done].
      by rewrite handleFailedCharge_wallets.
Qed.

Lemma commit_transaction_ids (op : Op) (st : Store) :
  ∃ more,
    Transaction.id <$> transactions (commit op st)
    = ((Transaction.id <$> transactions st) ++ more)%list.
Proof.
  destruct op as [user|svc user dto reference|user dto timestamp random|payload now];
    cbn [commit].
  - exists []. by rewrite app_nil_r.
  - unfold initiateDeposit. destruct (findOne _ (wallets st)) as [wallet|].
    2: { exists []. by rewrite app_nil_r. }
    destruct (Qlt_bool (DepositDto.amount dto) 100).
    { exists []. by rewrite app_nil_r. }
    exists [next_transaction_id st].
    destruct (Paystack.initializeTransaction _ _ _ _); cbn; by rewrite fmap_app.
  - destruct (transfer user dto timestamp random st) as [[x|res] st'] eqn:T.
    + apply transfer_rollback in T as ->. exists []. by rewrite app_nil_r.
    + cbn [snd]. apply transfer_entries in T as (sender & recipient & _ & _ & ->).
      eexists. by rewrite fmap_app.
  - exists []. rewrite app_nil_r. unfold handlePaystackWebhook.
    destruct (bool_decide (Payload.event payload = "charge.success")).
    + apply handleSuccessfulCharge_ids.
    + destruct (bool_decide (Payload.event payload = "charge.failed")); [|done].
      apply handleFailedCharge_ids.
Qed.

(** X17.  No sequence of operations creates, removes or re-keys a
    wallet: in every committed store the list of wallet ids is the
    initial one, so wallet ids that are unique at the start are unique in
    every committed store. *)
Theorem wallets_are_never_created_or_removed (ops : list Op) (st : Store) :
  unique_wallet_ids st →
  Forall (λ st', Wallet.id <$> wallets st' = Wallet.id <$> wallets st ∧
                 unique_wallet_ids st')
    (committed_states ops st).
Proof.
  intros D.
  assert (H : Forall (λ st', Wallet.id <$> wallets st' = Wallet.id <$> wallets st)
                (committed_states ops st)).
  { clear D. revert st. induction ops as [|op ops IH]; intros st; cbn.
    - by constructor.
    - constructor; [done|]. specialize (IH (commit op st)).
      eapply Forall_impl; [exact IH|]. cbn. intros st' ->. apply commit_wallet_ids. }
  eapply Forall_impl; [exact H|]. cbn. intros st' E. split; [done|].
  unfold unique_wallet_ids. by rewrite E.
Qed.

Lemma wallets_are_never_created_or_removed_witness :
  Forall (λ st', Wallet.id <$> wallets st' = ["w1"; "w2"] ∧ unique_wallet_ids st')
    (committed_states
       [InitiateDeposit Example.gateway Example.alice {| DepositDto.amount := 5000 |}
          "TXN_1";
        Webhook Example.charge_success "2024-12-09T12:00:00.000Z";
        Transfer Example.alice (Example.to_bob 300) "1733779200000" "9f3c2a1b"]
       Example.ledger).
Proof.
  apply (wallets_are_never_created_or_removed _ Example.ledger). compute_done.
Defined.

(** X18.  The ledger is append-only: in every committed store of a run
    the ids of the initial entries come first, in their initial order;
    operations only add entries after them. *)
Theorem ledger_is_append_only (ops : list Op) (st : Store) :
  Forall (λ st', ∃ more,
            Transaction.id <$> transactions st'
            = ((Transaction.id <$> transactions st) ++ more)%list)
    (committed_states ops st).
Proof.
  revert st. induction ops as [|op ops IH]; intros st; cbn.
  - constructor; [|done]. exists []. by rewrite app_nil_r.
  - constructor; [exists []; by rewrite app_nil_r|].
    destruct (commit_transaction_ids op st) as [more1 E1].
    eapply Forall_impl; [exact (IH (commit op st))|]. cbn.
    intros st' [more2 ->]. exists (more1 ++ more2)%list. by rewrite E1, app_assoc.
Qed.

(** ** When a transfer goes through *)

(** X19.  A transfer succeeds exactly when the amount is at least 100,
    the caller has a wallet, the wallet number names a wallet with
    another id, and the amount does not exceed the sender's balance; the
    whole balance may be sent, which leaves the sender with a balance
    equal to zero. *)
Theorem transfer_succeeds_iff (user : User.t) (dto : TransferDto.t)
    (timestamp random : string) (st : Store) :
  ((∃ res st', transfer user dto timestamp random st = (inr res, st')) ↔
   ∃ sender recipient,
     (100 <= TransferDto.amount dto)%Q ∧
     findOne (by_user user) (wallets st) = Some sender ∧
     findOne (by_number dto) (wallets st) = Some recipient ∧
     Wallet.id sender ≠ Wallet.id recipient ∧
     (TransferDto.amount dto <= Wallet.balance sender)%Q) ∧
  (∀ sender recipient,
     (100 <= TransferDto.amount dto)%Q →
     findOne (by_user user) (wallets st) = Some sender →
     findOne (by_number dto) (wallets st) = Some recipient →
     Wallet.id sender ≠ Wallet.id recipient →
     (TransferDto.amount dto == Wallet.balance sender)%Q →
     ∃ sender',
       find_wallet (Wallet.id sender) (snd (transfer user dto timestamp random st))
       = Some sender' ∧ (Wallet.balance sender' == 0)%Q).
Proof.
  split; [split|].
  - intros (res & st' & T).
    destruct (transfer_success _ _ _ _ _ _ _ T)
      as (sender & recipient & Fs & Fr & N & L & B & _).
    by exists sender, recipient.
  - intros (sender & recipient & L & Fs & Fr & N & B).
    rewrite transfer_cases. apply Qlt_bool_false in L, B.
    rewrite L, Fs, Fr, B. rewrite bool_decide_eq_false_2 by done. by eexists _, _.
  - intros sender recipient L Fs Fr N B.
    rewrite transfer_cases.
    assert (B' : (TransferDto.amount dto <= Wallet.balance sender)%Q)
      by (rewrite B; apply Qle_refl).
    apply Qlt_bool_false in L, B'.
    rewrite L, Fs, Fr, B'. rewrite bool_decide_eq_false_2 by done. cbn [snd].
    exists (debited dto sender). split.
    + by apply find_wallet_transferred_sender.
    + cbn. rewrite B. ring.
Qed.

Lemma transfer_succeeds_iff_witness :
  ∃ sender',
    find_wallet "w1" (snd (transfer Example.alice (Example.to_bob 1000) "1733779200000"
                             "9f3c2a1b" Example.ledger)) = Some sender' ∧
    (Wallet.balance sender' == 0)%Q.
Proof.
  apply (proj2 (transfer_succeeds_iff Example.alice (Example.to_bob 1000)
                  "1733779200000" "9f3c2a1b" Example.ledger) Example.w1 Example.w2);
    [discriminate|reflexivity|reflexivity|discriminate|reflexivity].
Defined.

(** X20.  With unique wallet ids, a transfer followed by the mirror
    transfer of the same amount (from the recipient's owner to the
    sender's wallet number) succeeds, provided the recipient's balance
    was not negative: the second call finds the two rows the first call
    wrote, passes the balance check, and leaves the first sender with
    [balance - amount + amount] and the first recipient with
    [balance + amount - amount], evaluated in that order. *)
Theorem transfer_and_back (user1 user2 : User.t) (dto1 dto2 : TransferDto.t)
    (timestamp1 random1 timestamp2 random2 : string)
    (st st1 : Store) (res1 : TransferResult.t) (sender recipient : Wallet.t) :
  unique_wallet_ids st →
  transfer user1 dto1 timestamp1 random1 st = (inr res1, st1) →
  findOne (by_user user1) (wallets st) = Some sender →
  findOne (by_number dto1) (wallets st) = Some recipient →
  findOne (by_user user2) (wallets st) = Some recipient →
  findOne (by_number dto2) (wallets st) = Some sender →
  TransferDto.amount dto2 = TransferDto.amount dto1 →
  (0 <= Wallet.balance recipient)%Q →
  ∃ res2 st2 sender2 recipient2,
    transfer user2 dto2 timestamp2 random2 st1 = (inr res2, st2) ∧
    find_wallet (Wallet.id sender) st2 = Some sender2 ∧
    find_wallet (Wallet.id recipient) st2 = Some recipient2 ∧
    Wallet.balance sender2
    = (Wallet.balance sender - TransferDto.amount dto1 + TransferDto.amount dto1)%Q ∧
    Wallet.balance recipient2
    = (Wallet.balance recipient + TransferDto.amount dto1 - TransferDto.amount dto1)%Q.
Proof.
  intros D T Fs Fr Fs2 Fr2 A R.
  destruct (transfer_success _ _ _ _ _ _ _ T)
    as (sender0 & recipient0 & Fs0 & Fr0 & N & L & B & ->).
  rewrite Fs in Fs0. injection Fs0 as <-. rewrite Fr in Fr0. injection Fr0 as <-.
  destruct (findOne_Some _ _ _ Fs) as [Is _]. destruct (findOne_Some _ _ _ Fr) as [Ir _].
  set (st1 := transferred user1 dto1 sender recipient st).
  assert (Gs : findOne (by_user user2) (wallets st1) = Some (received dto1 recipient)).
  { unfold st1. rewrite findOne_transferred by done. rewrite Fs2. cbn.
    rewrite bool_decide_eq_false_2 by done. by rewrite bool_decide_eq_true_2. }
  assert (Gr : findOne (by_number dto2) (wallets st1) = Some (debited dto1 sender)).
  { unfold st1. rewrite findOne_transferred by done. rewrite Fr2. cbn.
    by rewrite bool_decide_eq_true_2. }
  assert (L2 : Qlt_bool (TransferDto.amount dto2) 100 = false).
  { apply Qlt_bool_false. by rewrite A. }
  assert (B2 : Qlt_bool (Wallet.balance (received dto1 recipient))
                 (TransferDto.amount dto2) = false).
  { apply Qlt_bool_false. rewrite A. cbn. lra. }
  eexists _, _, (received dto2 (debited dto1 sender)),
    (debited dto2 (received dto1 recipient)).
  split; [|split; [|split; [|split]]].
  - rewrite transfer_cases, L2, Gs, Gr, B2.
    rewrite bool_decide_eq_false_2; [done|]. cbn. congruence.
  - apply (find_wallet_transferred_recipient user2 dto2 (received dto1 recipient)
             (debited dto1 sender) st1).
  - apply (find_wallet_transferred_sender user2 dto2 (received dto1 recipient)
             (debited dto1 sender) st1). cbn. congruence.
  - cbn. by rewrite A.
  - cbn. by rewrite A.
Qed.

Lemma transfer_and_back_witness :
  ∃ res2 st2 sender2 recipient2,
    transfer Example.bob (Example.to_alice 300) "1733779200001" "0d4e5f6a"
      Example2.after_transfer = (inr res2, st2) ∧
    find_wallet "w1" st2 = Some sender2 ∧
    find_wallet "w2" st2 = Some recipient2 ∧
    Wallet.balance sender2 = (1000 - 300 + 300)%Q ∧
    Wallet.balance recipient2 = (500 + 300 - 300)%Q.
Proof.
  apply (transfer_and_back Example.alice Example.bob (Example.to_bob 300)
           (Example.to_alice 300) "1733779200000" "9f3c2a1b" "1733779200001" "0d4e5f6a"
           Example.ledger Example2.after_transfer
           {| TransferResult.status := "success";
              TransferResult.message := "Transfer completed successfully" |}
           Example.w1 Example.w2);
    [compute_done|reflexivity|reflexivity|reflexivity|reflexivity|reflexivity
    |reflexivity|discriminate].
Defined.

(** ** The metadata the service stores *)

Lemma commit_object_metadata (op : Op) (st : Store) :
  object_metadata st → object_metadata (commit op st).
Proof.
  unfold object_metadata. intros M.
  destruct op as [user|svc user dto reference|user dto timestamp random|payload now];
    cbn [commit].
  - exact M.
  - unfold initiateDeposit. destruct (findOne _ (wallets st)) as [wallet|]; [|done].
    destruct (Qlt_bool (DepositDto.amount dto) 100); [done|].
    assert (Forall (λ e, ∃ o, stored_object (Transaction.metadata e) o)
              (transactions (insert_transaction
                               (depositTransaction wallet dto reference) st))).
    { cbn. apply Forall_app. split; [done|]. constructor; [|done].
      exists ∅. right. split; [by left|done]. }
    by destruct (Paystack.initializeTransaction _ _ _ _).
  - destruct (transfer user dto timestamp random st) as [[x|res] st'] eqn:T; cbn [snd].
    + by apply transfer_rollback in T as ->.
    + apply transfer_entries in T as (sender & recipient & _ & _ & ->).
      apply Forall_app. split; [done|].
      constructor; [eexists; by left|]. constructor; [eexists; by left|done].
  - unfold handlePaystackWebhook.
    destruct (bool_decide (Payload.event payload = "charge.success")).
    + rewrite handleSuccessfulCharge_cases.
      destruct (find_transaction_with_wallet _ st) as [[e joined]|]; [|done].
      destruct (bool_decide (Transaction.status e = SUCCESS)); [done|].
      destruct (parse_metadata (Transaction.metadata e)) as [x|o]; [done|].
      destruct joined as [w|]; [|done]. cbn [snd save_wallet transactions save_transaction].
      apply Forall_save; [|done]. eexists. by left.
    + destruct (bool_decide (Payload.event payload = "charge.failed")); [|done].
      rewrite handleFailedCharge_cases.
      destruct (find_transaction _ st) as [e|]; [|done].
      destruct (bool_decide (Transaction.status e = FAILED)); [done|].
      destruct (parse_metadata (Transaction.metadata e)) as [x|o]; [done|].
      cbn [snd transactions save_transaction].
      apply Forall_save; [|done]. eexists. by left.
Qed.

(** X21.  The service only ever stores the text of an object as
    metadata: when every entry's metadata is absent, empty or an object
    text, it is so in every committed store of every run. *)
Theorem metadata_stays_object_text (ops : list Op) (st : Store) :
  object_metadata st →
  Forall object_metadata (committed_states ops st).
Proof.
  revert st. induction ops as [|op ops IH]; intros st M; cbn.
  - by constructor.
  - constructor; [done|]. apply IH. by apply commit_object_metadata.
Qed.

Lemma metadata_stays_object_text_witness :
  Forall object_metadata
    (committed_states
       [InitiateDeposit Example.gateway Example.alice {| DepositDto.amount := 5000 |}
          "TXN_1";
        Webhook Example.charge_failed "2024-12-09T12:00:00.000Z";
        Webhook Example.charge_success "2024-12-09T12:05:00.000Z";
        Transfer Example.alice (Example.to_bob 300) "1733779200000" "9f3c2a1b"]
       Example.ledger).
Proof.
  apply metadata_stays_object_text. constructor.
Defined.
